(** * PolicyPrivilegeForm: the privileges and resources part of an access policy

  A shallow embedding of
  [datahub-web-react/src/app/permissions/policy/PolicyPrivilegeForm.tsx].

  The component is a function of its props, of the values its hooks return
  and of two pieces of local state.  Its event handlers are closures over
  those; each of them is embedded as a function that returns the calls it
  makes (to the callback props, to the two lazy queries and to the state
  setters), in order.

  JavaScript strings are embedded as [string]; [String.length] stands for
  the [length] property.  A value that may be [undefined] or [null] is an
  [option]. *)

From Stdlib Require Import ZArith Ascii String.
From stdpp Require Import base strings list option gmap.

Open Scope string_scope.
Open Scope list_scope.
Open Scope nat_scope.

(** ** Strings *)

Module JsString.

(** The white space and line terminator code units below 256, the ones
    [String.prototype.trim] strips among the characters of an [ascii]:
    TAB, LF, VT, FF, CR, SP and NBSP. *)
Definition isWhiteSpace (c : ascii) : bool :=
  let n := nat_of_ascii c in
  bool_decide (9 ≤ n ≤ 13) || bool_decide (n = 32) || bool_decide (n = 160).

Fixpoint trimStart (s : string) : string :=
  match s with
  | EmptyString => EmptyString
  | String c s' => if isWhiteSpace c then trimStart s' else s
  end.

Definition trimEnd (s : string) : string :=
  String.rev (trimStart (String.rev s)).

(** [text.trim()] *)
Definition trim (s : string) : string := trimEnd (trimStart s).

(** [s.substring(from, to)]: both indices are clamped to the length of
    [s] and swapped when [to < from]. *)
Definition substring (s : string) (from to : nat) : string :=
  let a := from `min` String.length s in
  let b := to `min` String.length s in
  String.substring (a `min` b) ((a `max` b) - (a `min` b)) s.

End JsString.

(** ** Types of [types.generated]

  The generated GraphQL types are not part of the file.  The component
  reads [urn] and [type] of an entity, compares the policy type with
  [PolicyType.Platform] and passes [EntityType.Domain] to the domain
  search; nothing else of these types is used, so they are an interface. *)

Class Generated := {
  EntityType : Type;
  EntityType_Domain : EntityType;
  Entity : Type;
  urn : Entity → string;
  entity_type : Entity → EntityType;
  PolicyType : Type;
  PolicyType_eq_dec :: EqDecision PolicyType;
  PolicyType_Platform : PolicyType;
  (** the fields of a [ResourceFilter] other than [filter] *)
  ResourceFilterRest : Type;
}.

Section Types.
Context `{G : Generated}.

(** [PolicyMatchCriterionValue]: [{ value, entity? }] *)
Record PolicyMatchCriterionValue := {
  value : string;
  entity : option Entity;
}.

(** Modelled from the spec: the declaration of [PolicyMatchCriterion] is
    in [types.generated]; the spec describes the filter as "a set of named
    criteria, each holding a set of typed values". *)
Record PolicyMatchCriterion := {
  field : string;
  values : list PolicyMatchCriterionValue;
}.

(** [PolicyMatchFilter]: the handlers build [{ criteria: [] }]. *)
Record PolicyMatchFilter := {
  criteria : list PolicyMatchCriterion;
}.

(** [ResourceFilter]: the optional [filter] and the remaining fields,
    which the spread [{ ...resources, filter: f }] copies. *)
Record ResourceFilter := {
  filter : option PolicyMatchFilter;
  rest : ResourceFilterRest;
}.

(** [Privilege]: the component reads [type] and [displayName]. *)
Record Privilege := {
  priv_type : string;
  displayName : string;
}.

(** [ResourcePrivileges]: the component reads [resourceType] and
    [resourceTypeDisplayName]. *)
Record ResourcePrivileges := {
  resourceType : string;
  resourceTypeDisplayName : string;
  entityType : option EntityType;
  rp_privileges : list Privilege;
}.

Record PoliciesConfig := {
  platformPrivileges : list Privilege;
  resourcePrivileges : list ResourcePrivileges;
}.

(** An element of [searchResults]. *)
Record SearchResult := {
  result_entity : Entity;
}.

(** The [input] variable of [searchAcrossEntities]. *)
Record SearchAcrossEntitiesInput := {
  sa_types : list EntityType;
  sa_query : string;
  sa_start : Z;
  sa_count : Z;
}.

(** The [input] variable of [search]. *)
Record SearchInput := {
  s_type : EntityType;
  s_query : string;
  s_start : Z;
  s_count : Z;
}.

(** The helpers imported from [./policyUtils], which is not part of the
    file: the component is written against this interface.  A
    [getFieldValues] that returns [None] stands for a falsy result, which
    the component replaces by [[]]. *)
Class PolicyUtils := {
  convertLegacyResourceFilter : option ResourceFilter → option ResourceFilter;
  EMPTY_POLICY_resources : ResourceFilter;
  getFieldValues :
    option PolicyMatchFilter → string → option (list PolicyMatchCriterionValue);
  setFieldValues :
    PolicyMatchFilter → string → list PolicyMatchCriterionValue → PolicyMatchFilter;
  createCriterionValue : string → PolicyMatchCriterionValue;
  createCriterionValueWithEntity :
    string → option Entity → PolicyMatchCriterionValue;
  mapResourceTypeToDisplayName : string → list ResourcePrivileges → string;
  mapResourceTypeToEntityType :
    string → list ResourcePrivileges → option EntityType;
  mapResourceTypeToPrivileges :
    list string → list ResourcePrivileges → list Privilege;
}.

(** The props, without the two callbacks: a call of [setResources] or
    [setPrivileges] is an [Effect] below. *)
Record Props := {
  policyType : PolicyType;
  maybeResources : option ResourceFilter;
  privileges : list string;
}.

(** What the hooks other than [useState] return in a render. *)
Record Hooks := {
  (** [entityRegistry.getDisplayName] *)
  registryDisplayName : EntityType → Entity → string;
  (** [useAppConfig().config.policiesConfig] *)
  policiesConfig : option PoliciesConfig;
  (** [resourcesSearchData?.searchAcrossEntities?.searchResults] *)
  resourceSearchResults : option (list SearchResult);
  (** [domainsSearchData?.search?.searchResults] *)
  domainSearchResults : option (list SearchResult);
}.

(** The two [useState] cells. *)
Record UiState := {
  domainInputValue : string;
  isFocusedOnInput : bool;
}.

(** The calls a handler makes. *)
Inductive Effect :=
| setPrivileges (newPrivs : list string)
| setResources (resources : ResourceFilter)
| searchResources (input : SearchAcrossEntitiesInput)
| searchDomains (input : SearchInput)
| setDomainInputValue (text : string)
| setIsFocusedOnInput (focused : bool)
| setTimeout (callback : Effect) (delay : Z).

End Types.

Arguments PolicyUtils {G}.

(** ** The component *)

Section Component.
Context `{G : Generated} `{PU : !PolicyUtils}.

(** The render reads [props], the hook results [h] and the state [st]. *)
Variables (props : Props) (h : Hooks) (st : UiState).

(** [convertLegacyResourceFilter(maybeResources) || EMPTY_POLICY.resources] *)
Definition resources : ResourceFilter :=
  default EMPTY_POLICY_resources
    (convertLegacyResourceFilter (maybeResources props)).

(** [getFieldValues(resources.filter, 'TYPE') || []] *)
Definition resourceTypes : list PolicyMatchCriterionValue :=
  default [] (getFieldValues (filter resources) "TYPE").

(** [getFieldValues(resources.filter, 'URN') || []] *)
Definition resourceEntities : list PolicyMatchCriterionValue :=
  default [] (getFieldValues (filter resources) "URN").

(** [getDisplayName]: [null] for a missing entity. *)
Definition getDisplayName (e : option Entity) : option string :=
  match e with
  | None => None
  | Some e => Some (registryDisplayName h (entity_type e) e)
  end.

(** The object filled by [forEach], used as a dictionary: one property per
    value, a later assignment to the same key replacing an earlier one. *)
Definition urnToDisplayName (l : list PolicyMatchCriterionValue)
  : gmap string (option string) :=
  foldl (λ m cv, <[value cv := getDisplayName (entity cv)]> m) ∅ l.

Definition resourceUrnToDisplayName : gmap string (option string) :=
  urnToDisplayName resourceEntities.

(** [getFieldValues(resources.filter, 'DOMAIN') || []] *)
Definition domains : list PolicyMatchCriterionValue :=
  default [] (getFieldValues (filter resources) "DOMAIN").

Definition domainUrnToDisplayName : gmap string (option string) :=
  urnToDisplayName domains.

(** [policyType !== PolicyType.Platform] *)
Definition showResourceFilterInput : bool :=
  bool_decide (policyType props ≠ PolicyType_Platform).

Definition resourceTypeSelectValue : list string := map value resourceTypes.
Definition resourceSelectValue : list string := map value resourceEntities.

(** [getFieldValues(resources.filter, 'DOMAIN').map(...)]: this read has no
    fallback, so it is defined only when [getFieldValues] returns an array. *)
Definition domainSelectValue : option (list string) :=
  match getFieldValues (filter resources) "DOMAIN" with
  | Some l => Some (map value l)
  | None => None
  end.

Definition privilegesSelectValue : list string := privileges props.

(** [!domainInputValue && isFocusedOnInput]: the empty string is the only
    falsy string. *)
Definition isShowingDomainNavigator : bool :=
  bool_decide (domainInputValue st = "") && isFocusedOnInput st.

(** [policiesConfig?.platformPrivileges || []] *)
Definition the_platformPrivileges : list Privilege :=
  default [] (platformPrivileges <$> policiesConfig h).

(** [policiesConfig?.resourcePrivileges || []] *)
Definition the_resourcePrivileges : list ResourcePrivileges :=
  default [] (resourcePrivileges <$> policiesConfig h).

Definition resourcePrivilegesForType : list Privilege :=
  mapResourceTypeToPrivileges resourceTypeSelectValue the_resourcePrivileges.

Definition privilegeOptions : list Privilege :=
  if decide (policyType props = PolicyType_Platform)
  then the_platformPrivileges
  else resourcePrivilegesForType.

(** [searchResults?.map((result) => result.entity).find((entity) => entity.urn === urn)] *)
Definition getEntityFromSearchResults
    (searchResults : option (list SearchResult)) (u : string) : option Entity :=
  match searchResults with
  | None => None
  | Some rs => List.find (λ e, bool_decide (urn e = u)) (map result_entity rs)
  end.

(** *** Privileges *)

(** When a privilege is selected, add its type to the privileges list. *)
Definition onSelectPrivilege (privilege : string) : list Effect :=
  if decide (privilege = "All")
  then [setPrivileges (map priv_type privilegeOptions)]
  else
    let newPrivs := privileges props ++ [privilege] in
    [setPrivileges newPrivs].

Definition onDeselectPrivilege (privilege : string) : list Effect :=
  let newPrivs :=
    if decide (privilege = "All")
    then []
    else List.filter (λ priv, bool_decide (priv ≠ privilege)) (privileges props) in
  [setPrivileges newPrivs].

(** *** Resource filter *)

(** [resources.filter || { criteria: [] }] *)
Definition filterOrEmpty : PolicyMatchFilter :=
  default {| criteria := [] |} (filter resources).

(** [{ ...resources, filter: f }] *)
Definition withFilter (f : PolicyMatchFilter) : ResourceFilter :=
  {| filter := Some f; rest := rest resources |}.

(** [l.filter((criterionValue) => criterionValue.value !== v)] *)
Definition withoutValue (v : string) (l : list PolicyMatchCriterionValue)
  : list PolicyMatchCriterionValue :=
  List.filter (λ criterionValue, bool_decide (value criterionValue ≠ v)) l.

Definition onSelectResourceType (selectedResourceType : string) : list Effect :=
  [setResources (withFilter
     (setFieldValues filterOrEmpty "TYPE"
        (resourceTypes ++ [createCriterionValue selectedResourceType])))].

Definition onDeselectResourceType (deselectedResourceType : string) : list Effect :=
  [setResources (withFilter
     (setFieldValues filterOrEmpty "TYPE"
        (withoutValue deselectedResourceType resourceTypes)))].

Definition onSelectResource (resource : string) : list Effect :=
  [setResources (withFilter
     (setFieldValues filterOrEmpty "URN"
        (resourceEntities ++
         [createCriterionValueWithEntity resource
            (getEntityFromSearchResults (resourceSearchResults h) resource)])))].

Definition onDeselectResource (resource : string) : list Effect :=
  [setResources (withFilter
     (setFieldValues filterOrEmpty "URN"
        (withoutValue resource resourceEntities)))].

Definition onSelectDomain (domainUrn : string) (domainObj : option Entity)
  : list Effect :=
  let domainEntity :=
    match domainObj with
    | Some d => Some d
    | None => getEntityFromSearchResults (domainSearchResults h) domainUrn
    end in
  let updatedFilter :=
    setFieldValues filterOrEmpty "DOMAIN"
      (domains ++ [createCriterionValueWithEntity domainUrn domainEntity]) in
  [setResources (withFilter updatedFilter)].

Definition selectDomainFromBrowser (domain : Entity) : list Effect :=
  onSelectDomain (urn domain) (Some domain) ++ [setIsFocusedOnInput false].

Definition onDeselectDomain (domain : string) : list Effect :=
  [setResources (withFilter
     (setFieldValues filterOrEmpty "DOMAIN" (withoutValue domain domains)))].

(** *** Searches *)

(** [trimmedText.length > 2 ? trimmedText : '*'] *)
Definition queryOf (trimmedText : string) : string :=
  if decide (2 < String.length trimmedText) then trimmedText else "*".

Definition handleResourceSearch (text : string) : list Effect :=
  let trimmedText := JsString.trim text in
  let entityTypes :=
    omap id
      (map (λ resourceType,
              mapResourceTypeToEntityType resourceType the_resourcePrivileges)
           resourceTypeSelectValue) in
  [searchResources
     {| sa_types := entityTypes; sa_query := queryOf trimmedText;
        sa_start := 0; sa_count := 10 |}].

Definition handleDomainSearch (text : string) : list Effect :=
  let trimmedText := JsString.trim text in
  [setDomainInputValue trimmedText;
   searchDomains
     {| s_type := EntityType_Domain; s_query := queryOf trimmedText;
        s_start := 0; s_count := 10 |}].

(** *** Local state *)

Definition handleCLickOutside : list Effect :=
  [setTimeout (setIsFocusedOnInput false) 0].

Definition handleBlur : list Effect := [setDomainInputValue ""].

(** The [onFocus] prop of the domain select. *)
Definition handleFocus : list Effect := [setIsFocusedOnInput true].

End Component.

(** The state after a call: only the two setters write the state, and a
    [setTimeout] changes nothing before its callback runs. *)
Definition applyEffect `{G : Generated} (st : UiState) (e : Effect) : UiState :=
  match e with
  | setDomainInputValue text =>
      {| domainInputValue := text; isFocusedOnInput := isFocusedOnInput st |}
  | setIsFocusedOnInput focused =>
      {| domainInputValue := domainInputValue st; isFocusedOnInput := focused |}
  | _ => st
  end.

Definition applyEffects `{G : Generated} (st : UiState) (es : list Effect) : UiState :=
  foldl applyEffect st es.

(** ** What the component renders *)

(** A [Select.Option]: its [value] and the text of its children. *)
Record SelectOption := {
  option_value : string;
  option_children : string;
}.

(** The props antd passes to [tagRender] that the component reads. *)
Record TagProps := {
  tag_value : string;
  tag_label : string;
}.

(** A rendered [Tag]: the text of its children and the [title] of the
    [Tooltip] around them, when there is one. *)
Record Tag := {
  tag_children : string;
  tag_tooltip : option string;
}.

(** The [Form.Item]s of the form. *)
Inductive FormItem :=
| ResourceTypeItem (selected : list string) (options : list SelectOption)
| ResourceItem (selected : list string) (options : list SelectOption)
| DomainItem (selected : list string) (options : list SelectOption)
    (dropdownHidden : bool) (browserIsHidden : bool)
| PrivilegesItem (selected : list string) (options : list SelectOption).

(** [length] is a number of characters; both call sites pass 75. *)
Definition displayStringWithMaxLength (displayStr : string) (length : nat) : string :=
  if decide (length < String.length displayStr)
  then JsString.substring displayStr 0 (length `min` String.length displayStr)
       +:+ "..."
  else displayStr.

(** [names[v] || v]: a missing property, [null] and the empty string are
    falsy. *)
Definition displayNameOr (names : gmap string (option string)) (v : string) : string :=
  match names !! v with
  | Some (Some name) => if decide (name = "") then v else name
  | _ => v
  end.

Section View.
Context `{G : Generated} `{PU : !PolicyUtils}.
Variables (props : Props) (h : Hooks) (st : UiState).

Definition renderSearchResult (result : SearchResult) : string :=
  registryDisplayName h (entity_type (result_entity result)) (result_entity result).

(** [searchResults?.map((result) => <Select.Option ...>)] *)
Definition searchResultOptions (searchResults : option (list SearchResult))
  : list SelectOption :=
  match searchResults with
  | None => []
  | Some rs =>
      map (λ result, {| option_value := urn (result_entity result);
                        option_children := renderSearchResult result |}) rs
  end.

(** The options of the resource type select. *)
Definition resourceTypeOptions : list SelectOption :=
  map (λ resPrivs, {| option_value := resourceType resPrivs;
                      option_children := resourceTypeDisplayName resPrivs |})
      (List.filter (λ privs, bool_decide (resourceType privs ≠ "all"))
                   (the_resourcePrivileges h)).

(** The options of the privileges select: one per privilege option, then
    the fixed option [All]. *)
Definition privilegeSelectOptions : list SelectOption :=
  map (λ priv, {| option_value := priv_type priv;
                  option_children := displayName priv |})
      (privilegeOptions props h)
  ++ [{| option_value := "All"; option_children := "All Privileges" |}].

Definition resourceTypeTagRender (tagProps : TagProps) : Tag :=
  {| tag_children :=
       mapResourceTypeToDisplayName (tag_value tagProps) (the_resourcePrivileges h);
     tag_tooltip := None |}.

Definition resourceTagRender (tagProps : TagProps) : Tag :=
  {| tag_children :=
       displayStringWithMaxLength
         (displayNameOr (resourceUrnToDisplayName props h) (tag_value tagProps)) 75;
     tag_tooltip := Some (tag_value tagProps) |}.

Definition domainTagRender (tagProps : TagProps) : Tag :=
  {| tag_children :=
       displayStringWithMaxLength
         (displayNameOr (domainUrnToDisplayName props h) (tag_value tagProps)) 75;
     tag_tooltip := None |}.

Definition privilegeTagRender (tagProps : TagProps) : Tag :=
  {| tag_children := tag_label tagProps; tag_tooltip := None |}.

(** [dropdownStyle={isShowingDomainNavigator ? { display: 'none' } : {}}] *)
Definition dropdownHidden : bool := isShowingDomainNavigator st.

(** [isHidden={!isShowingDomainNavigator}] of the [BrowserWrapper] *)
Definition browserIsHidden : bool := negb (isShowingDomainNavigator st).

(** The returned form, given the value of the domain select. *)
Definition formItems (domainSelectValue : list string) : list FormItem :=
  (if showResourceFilterInput props
   then [ResourceTypeItem (resourceTypeSelectValue props) resourceTypeOptions;
         ResourceItem (resourceSelectValue props)
           (searchResultOptions (resourceSearchResults h));
         DomainItem domainSelectValue
           (searchResultOptions (domainSearchResults h))
           dropdownHidden browserIsHidden]
   else [])
  ++ [PrivilegesItem (privilegesSelectValue props) privilegeSelectOptions].

(** A render: [None] when the unguarded read of the domain values throws. *)
Definition render : option (list FormItem) :=
  match domainSelectValue props with
  | Some selected => Some (formItems selected)
  | None => None
  end.

End View.

(** ** The events of the resource filter

    The six handlers that call [setResources], as antd calls them: the
    select and deselect events of the three filter inputs.  The domain
    select passes no domain object, the domain browser passes one through
    [selectDomainFromBrowser]. *)

Inductive FilterEvent `{G : Generated} :=
| SelectResourceType (selectedResourceType : string)
| DeselectResourceType (deselectedResourceType : string)
| SelectResource (resource : string)
| DeselectResource (resource : string)
| SelectDomain (domainUrn : string) (domainObj : option Entity)
| DeselectDomain (domain : string).

Definition handleFilterEvent `{G : Generated} `{PU : !PolicyUtils}
    (props : Props) (h : Hooks) (ev : FilterEvent) : list Effect :=
  match ev with
  | SelectResourceType t => onSelectResourceType props t
  | DeselectResourceType t => onDeselectResourceType props t
  | SelectResource r => onSelectResource props h r
  | DeselectResource r => onDeselectResource props r
  | SelectDomain u d => onSelectDomain props h u d
  | DeselectDomain d => onDeselectDomain props d
  end.

(** The field of the criteria an event writes. *)
Definition eventField `{G : Generated} (ev : FilterEvent) : string :=
  match ev with
  | SelectResourceType _ | DeselectResourceType _ => "TYPE"
  | SelectResource _ | DeselectResource _ => "URN"
  | SelectDomain _ _ | DeselectDomain _ => "DOMAIN"
  end.

(** ** Vocabulary of the statements *)

(** The values of field [k] of a resource filter, read the way the
    component reads them: [getFieldValues(r.filter, k) || []]. *)
Definition fieldValues `{G : Generated} `{PU : !PolicyUtils}
    (r : ResourceFilter) (k : string) : list PolicyMatchCriterionValue :=
  default [] (getFieldValues (filter r) k).

(** How many times [x] occurs in [l]. *)
Definition occurrences (x : string) (l : list string) : nat :=
  length (List.filter (λ y, bool_decide (y = x)) l).

(** [new] is [old] without the criterion values of value [v]: none of them
    is left, what remains is in its former order, and every other criterion
    value is kept. *)
Definition ValueRemoved `{G : Generated} (v : string)
    (old new : list PolicyMatchCriterionValue) : Prop :=
  new = List.filter (λ cv, bool_decide (value cv ≠ v)) old
  ∧ (∀ cv, cv ∈ new → value cv ≠ v)
  ∧ new `sublist_of` old
  ∧ (∀ cv, cv ∈ old → value cv ≠ v → cv ∈ new).

(** The display name known for the value [v] among the criterion values
    [l]: the name the registry displays for the entity of the last
    criterion value of value [v], when that has an entity and the name is
    not empty. *)
Definition knownDisplayName `{G : Generated} (h : Hooks)
    (l : list PolicyMatchCriterionValue) (v : string) : option string :=
  cv ← last (List.filter (λ cv, bool_decide (value cv = v)) l);
  e ← entity cv;
  let name := registryDisplayName h (entity_type e) e in
  if decide (name = "") then None else Some name.

(** The contract of [policyUtils] that the statements on the contents of a
    field rely on. *)

(** Reading a field after setting it gives the values set. *)
Definition ReadsBackWhatIsSet `{G : Generated} (PU : PolicyUtils) : Prop :=
  ∀ (f : PolicyMatchFilter) (k : string) (vs : list PolicyMatchCriterionValue),
    default [] (getFieldValues (Some (setFieldValues f k vs)) k) = vs.

(** A criterion value made from [v] has value [v]. *)
Definition CreatesValue `{G : Generated} (PU : PolicyUtils) : Prop :=
  ∀ v : string, value (createCriterionValue v) = v.

(** ** A reference instance of the interfaces

    It instantiates the statements below on concrete inputs. *)

Module Reference.

(** An entity as the component sees it: its [urn], its [type] and the name
    the registry displays. *)
Record RefEntity := {
  ref_urn : string;
  ref_type : string;
  ref_name : string;
}.

(** The enumerations are strings at run time; the remaining fields of a
    resource filter are name and value pairs. *)
#[export] Instance generated : Generated := {|
  EntityType := string;
  EntityType_Domain := "DOMAIN";
  Entity := RefEntity;
  urn := ref_urn;
  entity_type := ref_type;
  PolicyType := string;
  PolicyType_Platform := "PLATFORM";
  ResourceFilterRest := list (string * string);
|}.

Definition findCriterion (k : string) (f : PolicyMatchFilter)
  : option PolicyMatchCriterion :=
  List.find (λ criterion, bool_decide (field criterion = k)) (criteria f).

Definition findResourcePrivileges (t : string) (l : list ResourcePrivileges)
  : option ResourcePrivileges :=
  List.find (λ privs, bool_decide (resourceType privs = t)) l.

(** Modelled from the spec: [./policyUtils] is not part of the file.  The
    spec describes the resource filter as "a set of named criteria, each
    holding a set of typed values": reading a field gives the values of the
    criterion of that name (none when there is no such criterion), setting
    a field replaces the criterion of that name, a criterion value is made
    of a value and an optional entity, a resource filter that is absent
    stays absent, and the empty policy has a filter without criteria.  A
    resource type is mapped through the entry of that type in the
    privilege catalog. *)
#[export] Instance policyUtils : PolicyUtils := {|
  convertLegacyResourceFilter := λ r, r;
  EMPTY_POLICY_resources := {| filter := Some {| criteria := [] |}; rest := [] |};
  getFieldValues := λ f k,
    Some (match f ≫= findCriterion k with
          | Some criterion => values criterion
          | None => []
          end);
  setFieldValues := λ f k vs,
    {| criteria :=
         List.filter (λ criterion, bool_decide (field criterion ≠ k)) (criteria f)
         ++ [{| field := k; values := vs |}] |};
  createCriterionValue := λ v, {| value := v; entity := None |};
  createCriterionValueWithEntity := λ v e, {| value := v; entity := e |};
  mapResourceTypeToDisplayName := λ t l,
    match findResourcePrivileges t l with
    | Some privs => resourceTypeDisplayName privs
    | None => ""
    end;
  mapResourceTypeToEntityType := λ t l, findResourcePrivileges t l ≫= entityType;
  mapResourceTypeToPrivileges := λ ts l,
    flat_map rp_privileges
      (List.filter (λ privs, bool_decide (resourceType privs ∈ ts)) l);
|}.

(** A second instance, which exercises the fallbacks of the component:
    reading a field that has no criterion returns nothing, and the empty
    policy has no filter. *)
Definition sparseUtils : PolicyUtils := {|
  convertLegacyResourceFilter := λ r, r;
  EMPTY_POLICY_resources := {| filter := None; rest := [] |};
  getFieldValues := λ f k, values <$> (f ≫= findCriterion k);
  setFieldValues := setFieldValues (PolicyUtils := policyUtils);
  createCriterionValue := createCriterionValue (PolicyUtils := policyUtils);
  createCriterionValueWithEntity :=
    createCriterionValueWithEntity (PolicyUtils := policyUtils);
  mapResourceTypeToDisplayName :=
    mapResourceTypeToDisplayName (PolicyUtils := policyUtils);
  mapResourceTypeToEntityType :=
    mapResourceTypeToEntityType (PolicyUtils := policyUtils);
  mapResourceTypeToPrivileges :=
    mapResourceTypeToPrivileges (PolicyUtils := policyUtils);
|}.

(** *** Concrete inputs *)

Definition viewDataset : Privilege :=
  {| priv_type := "VIEW_ENTITY_PAGE"; displayName := "View Entity Page" |}.
Definition editTags : Privilege :=
  {| priv_type := "EDIT_ENTITY_TAGS"; displayName := "Edit Tags" |}.
Definition managePolicies : Privilege :=
  {| priv_type := "MANAGE_POLICIES"; displayName := "Manage Policies" |}.

Definition config : PoliciesConfig :=
  {| platformPrivileges := [managePolicies];
     resourcePrivileges :=
       [ {| resourceType := "dataset"; resourceTypeDisplayName := "Datasets";
            entityType := Some "DATASET"; rp_privileges := [viewDataset; editTags] |};
         {| resourceType := "all"; resourceTypeDisplayName := "All";
            entityType := None; rp_privileges := [viewDataset] |};
         {| resourceType := "container"; resourceTypeDisplayName := "Containers";
            entityType := None; rp_privileges := [editTags] |} ] |}.

Definition marketing : RefEntity :=
  {| ref_urn := "urn:li:domain:marketing"; ref_type := "DOMAIN";
     ref_name := "Marketing" |}.
Definition orders : RefEntity :=
  {| ref_urn := "urn:li:dataset:orders"; ref_type := "DATASET";
     ref_name := "Orders" |}.

Definition typeDataset : PolicyMatchCriterionValue :=
  {| value := "dataset"; entity := None |}.
Definition urnOrders : PolicyMatchCriterionValue :=
  {| value := "urn:li:dataset:orders"; entity := Some orders |}.
Definition urnRaw : PolicyMatchCriterionValue :=
  {| value := "urn:li:dataset:raw"; entity := None |}.
Definition domainMarketing : PolicyMatchCriterionValue :=
  {| value := "urn:li:domain:marketing"; entity := Some marketing |}.

(** A filter on one type, two resources and one domain, in a resource
    filter that also carries a legacy field. *)
Definition someResources : ResourceFilter :=
  {| filter := Some {| criteria :=
       [ {| field := "TYPE"; values := [typeDataset] |};
         {| field := "URN"; values := [urnOrders; urnRaw] |};
         {| field := "DOMAIN"; values := [domainMarketing] |} ] |};
     rest := [("allResources", "false")] |}.

(** A resource filter without a filter. *)
Definition legacyResources : ResourceFilter :=
  {| filter := None; rest := [("type", "dataset")] |}.

Definition metadataProps : Props :=
  {| policyType := "METADATA"; maybeResources := Some someResources;
     privileges := ["VIEW_ENTITY_PAGE"; "EDIT_ENTITY_TAGS"] |}.

Definition platformProps : Props :=
  {| policyType := "PLATFORM"; maybeResources := None;
     privileges := ["MANAGE_POLICIES"] |}.

Definition hooks : Hooks :=
  {| registryDisplayName := λ _ e, ref_name e;
     policiesConfig := Some config;
     resourceSearchResults := Some [ {| result_entity := orders |} ];
     domainSearchResults := Some [ {| result_entity := marketing |} ] |}.

(** A label of 100 characters. *)
Definition longLabel : string :=
  "Manage every access policy of the platform, its users and groups, "
  +:+ "for all teams of the organisation.".

Definition focusedEmpty : UiState :=
  {| domainInputValue := ""; isFocusedOnInput := true |}.

Definition typing : UiState :=
  {| domainInputValue := "mark"; isFocusedOnInput := true |}.

End Reference.

(** ** Further concrete inputs *)

Module Inputs.
Import Reference.

(** Hook results without a policies configuration and without search
    data. *)
Definition hooksWithoutConfig : Hooks :=
  {| registryDisplayName := λ _ e, ref_name e;
     policiesConfig := None;
     resourceSearchResults := None;
     domainSearchResults := None |}.

(** A policy on containers, a resource type without entity type. *)
Definition containerProps : Props :=
  {| policyType := "METADATA";
     maybeResources :=
       Some {| filter := Some {| criteria :=
                 [ {| field := "TYPE";
                      values := [ {| value := "container"; entity := None |} ] |} ] |};
               rest := [] |};
     privileges := [] |}.

(** The value of [urnRaw] once more, this time with an entity. *)
Definition urnRawOrders : PolicyMatchCriterionValue :=
  {| value := "urn:li:dataset:raw"; entity := Some orders |}.

(** A URN field that holds one value twice, before another value. *)
Definition duplicateProps : Props :=
  {| policyType := "METADATA";
     maybeResources :=
       Some {| filter := Some {| criteria :=
                 [ {| field := "URN";
                      values := [urnRaw; urnRawOrders; urnOrders] |} ] |};
               rest := [] |};
     privileges := [] |}.

End Inputs.

(** ** The next render

    The component is controlled: the parent stores what the callbacks
    report and passes it back as props. *)

(** The props after the parent stored the privileges reported. *)
Definition withPrivileges `{G : Generated} (props : Props)
    (newPrivs : list string) : Props :=
  {| policyType := policyType props;
     maybeResources := maybeResources props;
     privileges := newPrivs |}.

(** The props after the parent stored the resource filter reported. *)
Definition withResources `{G : Generated} (props : Props)
    (r : ResourceFilter) : Props :=
  {| policyType := policyType props;
     maybeResources := Some r;
     privileges := privileges props |}.

(** The state after the callbacks of the timers set by [es] have run. *)
Definition fireTimeouts `{G : Generated} (st : UiState) (es : list Effect) : UiState :=
  foldl (λ st e, match e with
                 | setTimeout callback _ => applyEffect st callback
                 | _ => st
                 end) st es.

(** ** Further contract of [policyUtils] *)

(** A criterion value made from [v] and [e] has value [v] and entity [e]. *)
Definition CreatesValueWithEntity `{G : Generated} (PU : PolicyUtils) : Prop :=
  ∀ (v : string) (e : option Entity),
    value (createCriterionValueWithEntity v e) = v
    ∧ entity (createCriterionValueWithEntity v e) = e.

(** A resource filter that has a [filter] needs no conversion. *)
Definition KeepsFilter `{G : Generated} (PU : PolicyUtils) : Prop :=
  ∀ (r : ResourceFilter) (f : PolicyMatchFilter),
    filter r = Some f → convertLegacyResourceFilter (Some r) = Some r.

(** Setting a field leaves what is read of the other fields. *)
Definition ReadsOtherFields `{G : Generated} (PU : PolicyUtils) : Prop :=
  ∀ (f : PolicyMatchFilter) (k k' : string) (vs : list PolicyMatchCriterionValue),
    k ≠ k' →
    default [] (getFieldValues (Some (setFieldValues f k vs)) k')
    = default [] (getFieldValues (Some f) k').

(** A missing filter reads as a filter without criteria. *)
Definition ReadsMissingAsEmpty `{G : Generated} (PU : PolicyUtils) : Prop :=
  ∀ k : string,
    default [] (getFieldValues None k)
    = default [] (getFieldValues (Some {| criteria := [] |}) k).

(** ** Vocabulary for texts *)

(** Every character of [s] is white space. *)
Definition allWhiteSpace (s : string) : Prop :=
  Forall (λ c, JsString.isWhiteSpace c = true) (list_ascii_of_string s).

(** [s] neither starts nor ends with white space. *)
Definition noWhiteSpaceAtEnds (s : string) : Prop :=
  (∀ c s', s = String c s' → JsString.isWhiteSpace c = false)
  ∧ (∀ s' c, s = s' +:+ String c "" → JsString.isWhiteSpace c = false).

(** * Properties *)

(** ** Lists *)

Lemma occurrences_app (x : string) (l1 l2 : list string) :
  occurrences x (l1 ++ l2) = occurrences x l1 + occurrences x l2.
Proof. unfold occurrences. by rewrite List.filter_app, length_app. Qed.

Lemma occurrences_elem_of (x : string) (l : list string) :
  x ∈ l → 1 ≤ occurrences x l.
Proof.
  unfold occurrences. induction 1 as [x l|x y l _ IH]; simpl.
  - rewrite bool_decide_eq_true_2 by done. simpl. lia.
  - destruct (bool_decide (y = x)); simpl; lia.
Qed.

Lemma occurrences_not_elem_of (x : string) (l : list string) :
  x ∉ l → occurrences x l = 0.
Proof.
  unfold occurrences. induction l as [|y l IH]; intros Hx; [done|]. simpl.
  apply not_elem_of_cons in Hx as [Hne Hx].
  rewrite bool_decide_eq_false_2 by done. auto.
Qed.

(** Filtering a list keeps a sublist of it. *)
Lemma filter_sublist {A} (P : A → bool) (l : list A) :
  List.filter P l `sublist_of` l.
Proof.
  induction l as [|x l IH]; simpl; [constructor|].
  destruct (P x); by constructor.
Qed.

Lemma occurrences_filter_ne (x p : string) (l : list string) :
  x ≠ p →
  occurrences x (List.filter (λ y, bool_decide (y ≠ p)) l) = occurrences x l.
Proof.
  intros Hne. unfold occurrences. induction l as [|y l IH]; [done|]. simpl.
  destruct (decide (y = p)) as [->|Hy].
  - rewrite (bool_decide_eq_false_2 (p ≠ p)) by auto.
    rewrite (bool_decide_eq_false_2 (p = x)) by auto. done.
  - rewrite (bool_decide_eq_true_2 (y ≠ p)) by done. simpl.
    destruct (bool_decide (y = x)); simpl; auto.
Qed.

Import Reference.

(** ** Privileges *)

Section Privileges.
Context `{G : Generated} `{PU : !PolicyUtils}.
Variables (props : Props) (h : Hooks).

Lemma onSelectPrivilege_All :
  onSelectPrivilege props h "All"
    = [setPrivileges (map priv_type (privilegeOptions props h))].
Proof. unfold onSelectPrivilege. by rewrite decide_True. Qed.

Lemma onSelectPrivilege_other (p : string) :
  p ≠ "All" →
  onSelectPrivilege props h p = [setPrivileges (privileges props ++ [p])].
Proof. intros Hp. unfold onSelectPrivilege. by rewrite decide_False. Qed.

(** C3. Selecting [All] reports exactly the types of the current privilege
    options, whatever was selected before; selecting any other privilege
    reports the current privileges with that privilege appended at the
    end. *)
Theorem onSelectPrivilege_reports (p : string) :
  onSelectPrivilege props h "All"
    = [setPrivileges (map priv_type (privilegeOptions props h))]
  ∧ (p ≠ "All" →
     onSelectPrivilege props h p = [setPrivileges (privileges props ++ [p])]).
Proof. split; [apply onSelectPrivilege_All | apply onSelectPrivilege_other]. Qed.

(** C4. Deselecting [All] reports the empty list; deselecting any other
    privilege [p] reports the current privileges without the occurrences of
    [p]: [p] is no longer in the list, what remains is in its former order,
    and every other privilege occurs as often as before. *)
Theorem onDeselectPrivilege_reports (p : string) :
  onDeselectPrivilege props "All" = [setPrivileges []]
  ∧ (p ≠ "All" →
     ∃ newPrivs,
       onDeselectPrivilege props p = [setPrivileges newPrivs]
       ∧ newPrivs = List.filter (λ priv, bool_decide (priv ≠ p)) (privileges props)
       ∧ (p ∉ newPrivs)
       ∧ newPrivs `sublist_of` (privileges props)
       ∧ ∀ x, x ≠ p → occurrences x newPrivs = occurrences x (privileges props)).
Proof.
  unfold onDeselectPrivilege. split.
  - by rewrite decide_True.
  - intros Hp. rewrite decide_False by done.
    eexists. split; [reflexivity|]. split; [reflexivity|].
    split; [|split].
    + rewrite list_elem_of_In, List.filter_In, bool_decide_eq_true. tauto.
    + apply filter_sublist.
    + intros x Hx. by apply occurrences_filter_ne.
Qed.

(** Selecting a privilege that is already in the list reports a list that
    contains it at least twice. *)
Lemma onSelectPrivilege_duplicates (p : string) :
  p ∈ privileges props → p ≠ "All" →
  ∃ newPrivs,
    onSelectPrivilege props h p = [setPrivileges newPrivs]
    ∧ 2 ≤ occurrences p newPrivs.
Proof.
  intros Hin Hp. exists (privileges props ++ [p]). split.
  - by apply onSelectPrivilege_other.
  - rewrite occurrences_app. apply occurrences_elem_of in Hin.
    unfold occurrences at 2. simpl. rewrite bool_decide_eq_true_2 by done.
    simpl. lia.
Qed.

End Privileges.

(** ** Resource filter *)

Section ResourceFilter.
Context `{G : Generated} `{PU : !PolicyUtils}.
Variables (props : Props) (h : Hooks).

Lemma withoutValue_removed (v : string) (l : list PolicyMatchCriterionValue) :
  ValueRemoved v l (withoutValue v l).
Proof.
  unfold ValueRemoved, withoutValue. split; [done|]. split; [|split].
  - intros cv. rewrite list_elem_of_In, List.filter_In, bool_decide_eq_true. tauto.
  - apply filter_sublist.
  - intros cv Hin Hne.
    rewrite list_elem_of_In, List.filter_In, bool_decide_eq_true.
    by rewrite <- list_elem_of_In.
Qed.

(** Every event makes one call of [setResources], with the spread of
    [resources] in which [filter] is the result of [setFieldValues] on the
    field of the event. *)
Lemma handleFilterEvent_shape (ev : FilterEvent) :
  ∃ vs, handleFilterEvent props h ev
        = [setResources
             {| filter := Some (setFieldValues (filterOrEmpty props) (eventField ev) vs);
                rest := rest (resources props) |}].
Proof. destruct ev; simpl; eexists; reflexivity. Qed.

(** When the conversion leaves the prop as it is, [resources] is the prop. *)
Lemma resources_unconverted (r0 : ResourceFilter) :
  maybeResources props = Some r0 →
  convertLegacyResourceFilter (Some r0) = Some r0 →
  resources props = r0.
Proof. intros Hr Hc. unfold resources. by rewrite Hr, Hc. Qed.

(** C5. Every handler of the resource filter calls [setResources] with an
    object whose [filter] is set and whose other fields are those of
    [resources]; they are those of the [resources] prop whenever
    [convertLegacyResourceFilter] returns the prop as it is. *)
Theorem filter_events_frame (ev : FilterEvent) :
  ∃ r f,
    handleFilterEvent props h ev = [setResources r]
    ∧ filter r = Some f
    ∧ rest r = rest (resources props)
    ∧ ∀ r0, maybeResources props = Some r0 →
            convertLegacyResourceFilter (Some r0) = Some r0 →
            rest r = rest r0.
Proof.
  destruct (handleFilterEvent_shape ev) as [vs Hev].
  eexists _, _. split; [exact Hev|]. simpl. split; [done|]. split; [done|].
  intros r0 Hr Hc. by rewrite (resources_unconverted r0).
Qed.

Lemma fieldValues_withFilter (f : PolicyMatchFilter) (k : string)
    (vs : list PolicyMatchCriterionValue) :
  ReadsBackWhatIsSet PU →
  fieldValues (withFilter props (setFieldValues f k vs)) k = vs.
Proof. intros Hlaw. unfold fieldValues, withFilter. simpl. apply Hlaw. Qed.

(** C6. Deselecting a value reports a filter in which the field of the
    input (TYPE, URN or DOMAIN) holds the current values of that field
    without the criterion values of the deselected value, the others in
    their former order. *)
Theorem deselect_removes_value (v : string) :
  ReadsBackWhatIsSet PU →
  (∃ r, onDeselectResourceType props v = [setResources r]
        ∧ ValueRemoved v (fieldValues (resources props) "TYPE") (fieldValues r "TYPE"))
  ∧ (∃ r, onDeselectResource props v = [setResources r]
        ∧ ValueRemoved v (fieldValues (resources props) "URN") (fieldValues r "URN"))
  ∧ (∃ r, onDeselectDomain props v = [setResources r]
        ∧ ValueRemoved v (fieldValues (resources props) "DOMAIN") (fieldValues r "DOMAIN")).
Proof.
  intros Hlaw. repeat split; eexists; (split; [reflexivity|]);
    rewrite fieldValues_withFilter by done; apply withoutValue_removed.
Qed.

(** Selecting a resource type that the TYPE field already holds reports a
    TYPE field that holds it at least twice. *)
Lemma onSelectResourceType_duplicates (t : string) :
  ReadsBackWhatIsSet PU → CreatesValue PU →
  t ∈ map value (fieldValues (resources props) "TYPE") →
  ∃ r, onSelectResourceType props t = [setResources r]
       ∧ 2 ≤ occurrences t (map value (fieldValues r "TYPE")).
Proof.
  intros Hlaw Hval Hin. eexists. split; [reflexivity|].
  rewrite fieldValues_withFilter by done.
  rewrite List.map_app, occurrences_app. apply occurrences_elem_of in Hin.
  simpl. rewrite Hval. unfold occurrences at 2. simpl.
  rewrite bool_decide_eq_true_2 by done. simpl.
  change (resourceTypes props) with (fieldValues (resources props) "TYPE"). lia.
Qed.

(** C1. Nothing is deduplicated: selecting a privilege (other than [All])
    that the privileges already contain reports a list that contains it at
    least twice, and selecting a resource type that the TYPE field already
    holds reports a TYPE field with at least two criterion values of that
    value. *)
Theorem select_does_not_deduplicate (p t : string) :
  (p ∈ privileges props → p ≠ "All" →
   ∃ newPrivs,
     onSelectPrivilege props h p = [setPrivileges newPrivs]
     ∧ 2 ≤ occurrences p newPrivs)
  ∧ (ReadsBackWhatIsSet PU → CreatesValue PU →
     t ∈ map value (fieldValues (resources props) "TYPE") →
     ∃ r, onSelectResourceType props t = [setResources r]
          ∧ 2 ≤ occurrences t (map value (fieldValues r "TYPE"))).
Proof.
  split; [apply onSelectPrivilege_duplicates | apply onSelectResourceType_duplicates].
Qed.

End ResourceFilter.

(** ** An absent [resources] prop *)

Section AbsentResources.
Context `{G : Generated} `{PU : !PolicyUtils}.
Variables (props : Props) (h : Hooks).

Lemma filterOrEmpty_missing :
  filter (resources props) = None → filterOrEmpty props = {| criteria := [] |}.
Proof. intros Hf. unfold filterOrEmpty. by rewrite Hf. Qed.

(** The form is returned exactly when the read of the domain values for
    the select, which has no fallback, returns an array. *)
Lemma render_defined (st : UiState) :
  is_Some (render props h st)
  ↔ is_Some (getFieldValues (filter (resources props)) "DOMAIN").
Proof.
  unfold render, domainSelectValue.
  destruct (getFieldValues (filter (resources props)) "DOMAIN"); simpl.
  - split; intros _; by eexists.
  - split; by intros [? ?].
Qed.


End AbsentResources.

(** ** Searches *)

Lemma omap_id_map {A B} (f : A → option B) (l : list A) :
  omap id (map f l) = omap f l.
Proof.
  induction l as [|x l IH]; [done|].
  cbn [map omap list_omap]. destruct (f x); cbn; by rewrite <- IH.
Qed.

Example trim_spaces : JsString.trim "  ab c  " = "ab c".
Proof. reflexivity. Qed.

Example trim_blank : JsString.trim "   " = "".
Proof. reflexivity. Qed.

Example trim_tab_newline :
  JsString.trim (String (ascii_of_nat 9) ("ab" +:+ String (ascii_of_nat 10) ""))
  = "ab".
Proof. reflexivity. Qed.

(** What [trimStart] returns does not start with white space. *)
Lemma trimStart_head (s : string) (c : ascii) (s' : string) :
  JsString.trimStart s = String c s' → JsString.isWhiteSpace c = false.
Proof.
  induction s as [|a s IH]; simpl; [done|].
  destruct (JsString.isWhiteSpace a) eqn:Ha; [done|].
  intros [= <- <-]. exact Ha.
Qed.

(** A text that starts with another character keeps its start. *)
Lemma trimStart_id (c : ascii) (s : string) :
  JsString.isWhiteSpace c = false →
  JsString.trimStart (String c s) = String c s.
Proof. intros Hc. simpl. by rewrite Hc. Qed.

(** The query of a search: the text when it is longer than two characters,
    the wildcard otherwise. *)
Lemma queryOf_spec (trimmedText : string) :
  (2 < String.length trimmedText → queryOf trimmedText = trimmedText)
  ∧ (String.length trimmedText ≤ 2 → queryOf trimmedText = "*").
Proof.
  unfold queryOf. split; intros Hlen.
  - by rewrite decide_True.
  - rewrite decide_False; [done|lia].
Qed.

Section Searches.
Context `{G : Generated} `{PU : !PolicyUtils}.
Variables (props : Props) (h : Hooks).

(** C2. A resource search issues one multi-entity query on the entity types
    of the selected resource types, those without a mapping left out; a
    domain search issues one query of type [Domain] (after storing the
    trimmed text).  In both the query is the trimmed text when that has
    more than two characters and ["*"] otherwise, with start 0 and count
    10. *)
Theorem searches_issue_queries (text : string) :
  (∃ input,
     handleResourceSearch props h text = [searchResources input]
     ∧ sa_types input
       = omap (λ resourceType,
                 mapResourceTypeToEntityType resourceType (the_resourcePrivileges h))
              (map value (resourceTypes props))
     ∧ (∀ entityType,
          entityType ∈ sa_types input ↔
          ∃ resourceType,
            resourceType ∈ map value (resourceTypes props)
            ∧ mapResourceTypeToEntityType resourceType (the_resourcePrivileges h)
              = Some entityType)
     ∧ (2 < String.length (JsString.trim text) → sa_query input = JsString.trim text)
     ∧ (String.length (JsString.trim text) ≤ 2 → sa_query input = "*")
     ∧ sa_start input = 0%Z ∧ sa_count input = 10%Z)
  ∧ (∃ input,
       handleDomainSearch text
         = [setDomainInputValue (JsString.trim text); searchDomains input]
       ∧ s_type input = EntityType_Domain
       ∧ (2 < String.length (JsString.trim text) → s_query input = JsString.trim text)
       ∧ (String.length (JsString.trim text) ≤ 2 → s_query input = "*")
       ∧ s_start input = 0%Z ∧ s_count input = 10%Z).
Proof.
  destruct (queryOf_spec (JsString.trim text)) as [Hlong Hshort].
  split; eexists; (split; [reflexivity|]); cbn [sa_types sa_query sa_start sa_count
    s_type s_query s_start s_count].
  - unfold resourceTypeSelectValue. rewrite omap_id_map.
    split; [done|]. split; [|by auto].
    intros entityType. rewrite list_elem_of_omap. naive_solver.
  - by auto.
Qed.

End Searches.

(** ** Local state *)

Section LocalState.
Context `{G : Generated}.

Lemma isShowingDomainNavigator_iff (st : UiState) :
  isShowingDomainNavigator st = true
  ↔ isFocusedOnInput st = true ∧ domainInputValue st = "".
Proof.
  unfold isShowingDomainNavigator.
  rewrite andb_true_iff, bool_decide_eq_true. tauto.
Qed.

(** C7. The local state is the pair of the focus flag and the domain search
    text.  The domain navigator is shown exactly when the flag is set and
    the text is empty, which is also exactly when the dropdown of the
    domain select is hidden; a blur empties the text and leaves the flag. *)
Theorem domain_navigator_state (st : UiState) :
  st = {| domainInputValue := domainInputValue st;
          isFocusedOnInput := isFocusedOnInput st |}
  ∧ (∀ (focused : bool) (text : string),
       ∃ st', isFocusedOnInput st' = focused ∧ domainInputValue st' = text)
  ∧ (browserIsHidden st = false
     ↔ isFocusedOnInput st = true ∧ domainInputValue st = "")
  ∧ (dropdownHidden st = true
     ↔ isFocusedOnInput st = true ∧ domainInputValue st = "")
  ∧ domainInputValue (applyEffects st handleBlur) = ""
  ∧ isFocusedOnInput (applyEffects st handleBlur) = isFocusedOnInput st.
Proof.
  split; [by destruct st|]. split.
  { intros focused text.
    by exists {| domainInputValue := text; isFocusedOnInput := focused |}. }
  unfold browserIsHidden, dropdownHidden. rewrite negb_false_iff.
  split; [apply isShowingDomainNavigator_iff|].
  split; [apply isShowingDomainNavigator_iff|]. done.
Qed.

End LocalState.

(** ** The rendered form *)

Section Form.
Context `{G : Generated} `{PU : !PolicyUtils}.
Variables (props : Props) (h : Hooks) (st : UiState).

Lemma resourceTypeOptions_all (o : SelectOption) :
  o ∈ resourceTypeOptions h → option_value o ≠ "all".
Proof.
  unfold resourceTypeOptions.
  rewrite list_elem_of_In, List.in_map_iff. intros (privs & <- & Hin).
  apply List.filter_In in Hin as [_ Hne]. by apply bool_decide_eq_true in Hne.
Qed.

Lemma resourceTypeOptions_others (privs : ResourcePrivileges) :
  privs ∈ the_resourcePrivileges h → resourceType privs ≠ "all" →
  {| option_value := resourceType privs;
     option_children := resourceTypeDisplayName privs |} ∈ resourceTypeOptions h.
Proof.
  intros Hin Hne. unfold resourceTypeOptions.
  rewrite list_elem_of_In, List.in_map_iff. exists privs. split; [done|].
  apply List.filter_In. split; [by apply list_elem_of_In|].
  by apply bool_decide_eq_true.
Qed.

(** C9. For a platform policy the form has the privileges input only, and
    the privilege options are the platform privileges of the policies
    configuration.  For any other policy type the form has the resource
    type, resource and domain inputs before the privileges input, the
    privilege options are the resource privileges mapped to the selected
    resource types, and the options of the resource type input are those
    of the resource privileges except the one of type ["all"].  The form is
    returned whenever the unguarded read of the domain values succeeds. *)
Theorem form_by_policy_type (selected : list string) :
  (policyType props = PolicyType_Platform →
     formItems props h st selected
       = [PrivilegesItem (privileges props) (privilegeSelectOptions props h)]
     ∧ privilegeOptions props h = default [] (platformPrivileges <$> policiesConfig h)
     ∧ ∀ config, policiesConfig h = Some config →
                 privilegeOptions props h = platformPrivileges config)
  ∧ (policyType props ≠ PolicyType_Platform →
     formItems props h st selected
       = [ResourceTypeItem (map value (resourceTypes props)) (resourceTypeOptions h);
          ResourceItem (map value (resourceEntities props))
            (searchResultOptions h (resourceSearchResults h));
          DomainItem selected (searchResultOptions h (domainSearchResults h))
            (dropdownHidden st) (browserIsHidden st);
          PrivilegesItem (privileges props) (privilegeSelectOptions props h)]
     ∧ privilegeOptions props h
       = mapResourceTypeToPrivileges (map value (resourceTypes props))
           (default [] (resourcePrivileges <$> policiesConfig h))
     ∧ (∀ o, o ∈ resourceTypeOptions h → option_value o ≠ "all")
     ∧ (∀ privs, privs ∈ default [] (resourcePrivileges <$> policiesConfig h) →
                 resourceType privs ≠ "all" →
                 {| option_value := resourceType privs;
                    option_children := resourceTypeDisplayName privs |}
                 ∈ resourceTypeOptions h))
  ∧ (∀ l, getFieldValues (filter (resources props)) "DOMAIN" = Some l →
          render props h st = Some (formItems props h st (map value l))).
Proof.
  unfold formItems, showResourceFilterInput, privilegeOptions.
  split; [|split].
  - intros Hp. rewrite bool_decide_eq_false_2 by auto.
    rewrite decide_True by done. split; [done|]. split; [done|].
    intros config Hc. unfold the_platformPrivileges. by rewrite Hc.
  - intros Hp. rewrite bool_decide_eq_true_2 by done.
    rewrite decide_False by done. split; [done|]. split; [done|].
    split; [apply resourceTypeOptions_all | apply resourceTypeOptions_others].
  - intros l Hl. unfold render, domainSelectValue. by rewrite Hl.
Qed.

End Form.

(** ** Tags *)

Lemma string_length_app (s1 s2 : string) :
  String.length (s1 +:+ s2) = String.length s1 + String.length s2.
Proof. induction s1 as [|c s1 IH]; simpl; [done|]. by rewrite IH. Qed.

(** The first [n] characters of a string that has at least [n]. *)
Lemma substring_0_prefix (s : string) (n : nat) :
  n ≤ String.length s →
  ∃ post, s = String.substring 0 n s +:+ post
          ∧ String.length (String.substring 0 n s) = n.
Proof.
  revert n. induction s as [|c s IH]; intros [|n] Hn; simpl in *.
  - by exists "".
  - lia.
  - by exists (String c s).
  - destruct (IH n) as (post & Hs & Hlen); [lia|].
    exists post. split; [|congruence].
    change (String c s = String c (String.substring 0 n s +:+ post)). congruence.
Qed.

Lemma JsString_substring_0 (s : string) (n : nat) :
  n ≤ String.length s → JsString.substring s 0 n = String.substring 0 n s.
Proof.
  intros Hn. unfold JsString.substring.
  rewrite (Nat.min_l n) by done. simpl. by rewrite Nat.sub_0_r.
Qed.

Lemma displayStringWithMaxLength_short (s : string) (L : nat) :
  String.length s ≤ L → displayStringWithMaxLength s L = s.
Proof.
  intros Hlen. unfold displayStringWithMaxLength. rewrite decide_False; [done|lia].
Qed.

Lemma displayStringWithMaxLength_long (s : string) (L : nat) :
  L < String.length s →
  ∃ pre post,
    s = pre +:+ post
    ∧ String.length pre = L
    ∧ displayStringWithMaxLength s L = pre +:+ "..."
    ∧ String.length (displayStringWithMaxLength s L) = L + 3.
Proof.
  intros Hlen. unfold displayStringWithMaxLength. rewrite decide_True by done.
  rewrite Nat.min_l by lia. rewrite JsString_substring_0 by lia.
  destruct (substring_0_prefix s L) as (post & Hs & Hpre); [lia|].
  exists (String.substring 0 L s), post.
  rewrite string_length_app, Hpre. done.
Qed.

(** No result for the bound 75 is longer than 78 characters. *)
Lemma displayStringWithMaxLength_75 (s : string) :
  String.length (displayStringWithMaxLength s 75) ≤ 78.
Proof.
  destruct (decide (String.length s ≤ 75)) as [Hs|Hs].
  - rewrite displayStringWithMaxLength_short by done. lia.
  - destruct (displayStringWithMaxLength_long s 75) as (? & ? & _ & _ & _ & ->); lia.
Qed.

Section Tags.
Context `{G : Generated} `{PU : !PolicyUtils}.
Variables (props : Props) (h : Hooks).

(** The property of [v] in the object filled by [forEach] is the one
    assigned for the last criterion value of value [v]. *)
Lemma urnToDisplayName_lookup (l : list PolicyMatchCriterionValue) (v : string) :
  urnToDisplayName h l !! v
  = (λ cv, getDisplayName h (entity cv))
      <$> last (List.filter (λ cv, bool_decide (value cv = v)) l).
Proof.
  unfold urnToDisplayName.
  induction l as [|cv l IH] using rev_ind; [done|].
  rewrite foldl_snoc, List.filter_app. simpl.
  destruct (decide (value cv = v)) as [Heq|Hne].
  - rewrite bool_decide_eq_true_2 by done. rewrite last_snoc.
    rewrite Heq. by rewrite lookup_insert_eq.
  - rewrite bool_decide_eq_false_2 by done. rewrite app_nil_r.
    by rewrite lookup_insert_ne.
Qed.

Lemma displayNameOr_known (l : list PolicyMatchCriterionValue) (v : string) :
  displayNameOr (urnToDisplayName h l) v = default v (knownDisplayName h l v).
Proof.
  unfold displayNameOr, knownDisplayName. rewrite urnToDisplayName_lookup.
  destruct (last _) as [cv|]; [|done]. simpl.
  destruct (entity cv) as [e|]; [|done]. simpl.
  by destruct (decide (_ = "")).
Qed.

(** C10. [displayStringWithMaxLength] returns a string
    of at most [L] characters unchanged, and otherwise its first [L]
    characters followed by ["..."], [L + 3] characters in all.  The tags of
    the resource and of the domain input show it, with bound 75, on the
    display name known for the value, and on the value itself when none is
    known; the tags of the resource type input show the display name of
    the resource type and those of the privileges input their label, both
    as they are. *)
Theorem tags_shorten_display_names (s : string) (L : nat) (tagProps : TagProps) :
  (String.length s ≤ L → displayStringWithMaxLength s L = s)
  ∧ (L < String.length s →
     ∃ pre post,
       s = pre +:+ post
       ∧ String.length pre = L
       ∧ displayStringWithMaxLength s L = pre +:+ "..."
       ∧ String.length (displayStringWithMaxLength s L) = L + 3)
  ∧ tag_children (resourceTagRender props h tagProps)
    = displayStringWithMaxLength
        (default (tag_value tagProps)
           (knownDisplayName h (resourceEntities props) (tag_value tagProps))) 75
  ∧ tag_children (domainTagRender props h tagProps)
    = displayStringWithMaxLength
        (default (tag_value tagProps)
           (knownDisplayName h (domains props) (tag_value tagProps))) 75
  ∧ tag_children (resourceTypeTagRender h tagProps)
    = mapResourceTypeToDisplayName (tag_value tagProps)
        (default [] (resourcePrivileges <$> policiesConfig h))
  ∧ tag_children (privilegeTagRender tagProps) = tag_label tagProps.
Proof.
  split; [apply displayStringWithMaxLength_short|].
  split; [apply displayStringWithMaxLength_long|].
  unfold resourceTagRender, domainTagRender, resourceUrnToDisplayName,
    domainUrnToDisplayName. simpl.
  by rewrite !displayNameOr_known.
Qed.

End Tags.

(** Not every tag is shortened: a tag of the privileges input shows a label
    of 100 characters in full, and no result of
    [displayStringWithMaxLength] for the bound 75 has more than 78. *)
Lemma privilege_tag_is_not_shortened :
  let tagProps := {| tag_value := "MANAGE_POLICIES"; tag_label := longLabel |} in
  tag_children (privilegeTagRender tagProps) = longLabel
  ∧ String.length (tag_children (privilegeTagRender tagProps)) = 100
  ∧ ∀ s, tag_children (privilegeTagRender tagProps)
         ≠ displayStringWithMaxLength s 75.
Proof.
  intros tagProps. split; [reflexivity|]. split; [reflexivity|].
  intros s Heq. pose proof (displayStringWithMaxLength_75 s) as Hlen.
  rewrite <- Heq in Hlen. vm_compute in Hlen. lia.
Qed.

(** * The statements on concrete inputs *)

(** The reference instances satisfy the contract. *)

Lemma findCriterion_set (k : string) (vs : list PolicyMatchCriterionValue)
    (l : list PolicyMatchCriterion) :
  List.find (λ criterion, bool_decide (field criterion = k))
    (List.filter (λ criterion, bool_decide (field criterion ≠ k)) l
     ++ [{| field := k; values := vs |}])
  = Some {| field := k; values := vs |}.
Proof.
  induction l as [|c l IH]; simpl.
  - by rewrite bool_decide_eq_true_2.
  - destruct (decide (field c = k)) as [Heq|Hne].
    + rewrite (bool_decide_eq_false_2 (field c ≠ k)) by auto. done.
    + rewrite (bool_decide_eq_true_2 (field c ≠ k)) by done. simpl.
      by rewrite (bool_decide_eq_false_2 (field c = k)).
Qed.

Lemma reference_reads_back : ReadsBackWhatIsSet policyUtils.
Proof.
  intros f k vs. simpl. unfold findCriterion. simpl.
  by rewrite findCriterion_set.
Qed.

Lemma sparse_reads_back : ReadsBackWhatIsSet sparseUtils.
Proof.
  intros f k vs. simpl. unfold findCriterion. simpl.
  by rewrite findCriterion_set.
Qed.

Lemma reference_creates_value : CreatesValue policyUtils.
Proof. by intros v. Qed.

Lemma select_does_not_deduplicate_witness :
  ("VIEW_ENTITY_PAGE" ∈ privileges metadataProps
   ∧ "VIEW_ENTITY_PAGE" ≠ "All"
   ∧ ReadsBackWhatIsSet policyUtils ∧ CreatesValue policyUtils
   ∧ "dataset" ∈ map value (fieldValues (resources metadataProps) "TYPE"))
  ∧ (∃ newPrivs,
       onSelectPrivilege metadataProps hooks "VIEW_ENTITY_PAGE"
         = [setPrivileges newPrivs]
       ∧ 2 ≤ occurrences "VIEW_ENTITY_PAGE" newPrivs)
  ∧ (∃ r, onSelectResourceType metadataProps "dataset" = [setResources r]
          ∧ 2 ≤ occurrences "dataset" (map value (fieldValues r "TYPE"))).
Proof.
  assert (Hp : "VIEW_ENTITY_PAGE" ∈ privileges metadataProps) by constructor.
  assert (Ht : "dataset" ∈ map value (fieldValues (resources metadataProps) "TYPE"))
    by constructor.
  pose proof reference_reads_back as Hlaw. pose proof reference_creates_value as Hval.
  split; [done|].
  destruct (select_does_not_deduplicate metadataProps hooks "VIEW_ENTITY_PAGE" "dataset")
    as [Hprivs Htypes].
  split; [by apply Hprivs | by apply Htypes].
Defined.

Lemma onSelectPrivilege_reports_witness :
  "EDIT_ENTITY_OWNERS" ≠ "All"
  ∧ onSelectPrivilege metadataProps hooks "EDIT_ENTITY_OWNERS"
    = [setPrivileges ["VIEW_ENTITY_PAGE"; "EDIT_ENTITY_TAGS"; "EDIT_ENTITY_OWNERS"]].
Proof.
  split; [done|].
  by apply (onSelectPrivilege_reports metadataProps hooks "EDIT_ENTITY_OWNERS").
Defined.

Lemma onDeselectPrivilege_reports_witness :
  "VIEW_ENTITY_PAGE" ≠ "All"
  ∧ ∃ newPrivs,
      onDeselectPrivilege metadataProps "VIEW_ENTITY_PAGE" = [setPrivileges newPrivs]
      ∧ newPrivs = ["EDIT_ENTITY_TAGS"]
      ∧ "VIEW_ENTITY_PAGE" ∉ newPrivs.
Proof.
  split; [done|].
  destruct (onDeselectPrivilege_reports metadataProps "VIEW_ENTITY_PAGE")
    as [_ Hother].
  destruct Hother as (newPrivs & Hev & Heq & Hnot & _); [done|].
  exists newPrivs. split; [exact Hev|]. split; [exact Heq | exact Hnot].
Defined.

Lemma filter_events_frame_witness :
  (maybeResources metadataProps = Some someResources
   ∧ convertLegacyResourceFilter (Some someResources) = Some someResources)
  ∧ ∃ r, handleFilterEvent metadataProps hooks
           (SelectDomain "urn:li:domain:marketing" None) = [setResources r]
         ∧ rest r = [("allResources", "false")].
Proof.
  split; [done|].
  destruct (filter_events_frame metadataProps hooks
              (SelectDomain "urn:li:domain:marketing" None))
    as (r & f & Hev & _ & _ & Hprop).
  exists r. split; [exact Hev|]. exact (Hprop someResources eq_refl eq_refl).
Defined.

Lemma deselect_removes_value_witness :
  ReadsBackWhatIsSet policyUtils
  ∧ ∃ r, onDeselectResource metadataProps "urn:li:dataset:raw" = [setResources r]
         ∧ ValueRemoved "urn:li:dataset:raw" [urnOrders; urnRaw] (fieldValues r "URN").
Proof.
  split; [exact reference_reads_back|].
  exact (proj1 (proj2
    (deselect_removes_value metadataProps "urn:li:dataset:raw" reference_reads_back))).
Defined.


Lemma searches_issue_queries_witness :
  (2 < String.length (JsString.trim "  orders ")
   ∧ String.length (JsString.trim " ma ") ≤ 2)
  ∧ handleResourceSearch metadataProps hooks "  orders "
    = [searchResources
         {| sa_types := ["DATASET"]; sa_query := "orders";
            sa_start := 0; sa_count := 10 |}]
  ∧ handleDomainSearch " ma "
    = [setDomainInputValue "ma";
       searchDomains
         {| s_type := "DOMAIN"; s_query := "*"; s_start := 0; s_count := 10 |}].
Proof.
  assert (Hlong : 2 < String.length (JsString.trim "  orders "))
    by (vm_compute; lia).
  assert (Hshort : String.length (JsString.trim " ma ") ≤ 2)
    by (vm_compute; lia).
  split; [done|]. split.
  - destruct (searches_issue_queries metadataProps hooks "  orders ")
      as [(input & Hev & Htypes & _ & Hquery & _ & Hstart & Hcount) _].
    rewrite Hev. destruct input as [types query start count]. simpl in *.
    by rewrite Htypes, (Hquery Hlong), Hstart, Hcount.
  - destruct (searches_issue_queries metadataProps hooks " ma ")
      as [_ (input & Hev & Htype & _ & Hquery & Hstart & Hcount)].
    rewrite Hev. destruct input as [type query start count]. simpl in *.
    by rewrite Htype, (Hquery Hshort), Hstart, Hcount.
Defined.

Lemma domain_navigator_state_witness :
  (isFocusedOnInput focusedEmpty = true ∧ domainInputValue focusedEmpty = "")
  ∧ browserIsHidden focusedEmpty = false
  ∧ dropdownHidden focusedEmpty = true
  ∧ domainInputValue (applyEffects typing handleBlur) = "".
Proof.
  split; [done|].
  destruct (domain_navigator_state focusedEmpty)
    as (_ & _ & Hbrowser & Hdropdown & _).
  destruct (domain_navigator_state typing) as (_ & _ & _ & _ & Hblur & _).
  split; [by apply Hbrowser|]. split; [by apply Hdropdown | exact Hblur].
Defined.

Lemma form_by_policy_type_witness :
  (policyType platformProps = PolicyType_Platform
   ∧ policyType metadataProps ≠ PolicyType_Platform
   ∧ policiesConfig hooks = Some config)
  ∧ formItems platformProps hooks focusedEmpty []
    = [PrivilegesItem ["MANAGE_POLICIES"]
         [{| option_value := "MANAGE_POLICIES"; option_children := "Manage Policies" |};
          {| option_value := "All"; option_children := "All Privileges" |}]]
  ∧ privilegeOptions platformProps hooks = [managePolicies]
  ∧ privilegeOptions metadataProps hooks = [viewDataset; editTags]
  ∧ resourceTypeOptions hooks
    = [{| option_value := "dataset"; option_children := "Datasets" |};
       {| option_value := "container"; option_children := "Containers" |}]
  ∧ is_Some (render metadataProps hooks focusedEmpty).
Proof.
  assert (Hplatform : policyType platformProps = PolicyType_Platform) by done.
  assert (Hmetadata : policyType metadataProps ≠ PolicyType_Platform) by done.
  split; [done|].
  destruct (form_by_policy_type platformProps hooks focusedEmpty [])
    as ((Hform & _ & Hoptions) & _ & _); [exact Hplatform|].
  destruct (form_by_policy_type metadataProps hooks focusedEmpty [])
    as (_ & (_ & Hmapped & _) & Hrender); [exact Hmetadata|].
  split; [exact Hform|]. split; [exact (Hoptions config eq_refl)|].
  split; [exact Hmapped|]. split; [reflexivity|].
  eexists. exact (Hrender [domainMarketing] eq_refl).
Defined.

Lemma tags_shorten_display_names_witness :
  (String.length "Orders" ≤ 75 ∧ 3 < String.length "urn:li:dataset:raw")
  ∧ displayStringWithMaxLength "Orders" 75 = "Orders"
  ∧ (∃ pre post,
       "urn:li:dataset:raw" = pre +:+ post
       ∧ String.length pre = 3
       ∧ displayStringWithMaxLength "urn:li:dataset:raw" 3 = pre +:+ "..."
       ∧ String.length (displayStringWithMaxLength "urn:li:dataset:raw" 3) = 3 + 3)
  ∧ tag_children
      (resourceTagRender metadataProps hooks
         {| tag_value := "urn:li:dataset:orders"; tag_label := "" |}) = "Orders"
  ∧ tag_children
      (resourceTagRender metadataProps hooks
         {| tag_value := "urn:li:dataset:raw"; tag_label := "" |})
    = "urn:li:dataset:raw".
Proof.
  assert (Hshort : String.length "Orders" ≤ 75) by (simpl; lia).
  assert (Hlong : 3 < String.length "urn:li:dataset:raw") by (simpl; lia).
  split; [done|].
  destruct (tags_shorten_display_names metadataProps hooks "Orders" 75
              {| tag_value := "urn:li:dataset:orders"; tag_label := "" |})
    as (Hkeep & _ & Hresource & _).
  destruct (tags_shorten_display_names metadataProps hooks "urn:li:dataset:raw" 3
              {| tag_value := "urn:li:dataset:raw"; tag_label := "" |})
    as (_ & Hcut & Hraw & _).
  split; [exact (Hkeep Hshort)|]. split; [exact (Hcut Hlong)|].
  split; [rewrite Hresource | rewrite Hraw]; reflexivity.
Defined.

(** * Further properties *)

(** ** Privileges, over renders *)

Lemma filter_ne_snoc (p : string) (l : list string) :
  p ∉ l → List.filter (λ priv, bool_decide (priv ≠ p)) (l ++ [p]) = l.
Proof.
  intros Hp. rewrite List.filter_app. simpl.
  rewrite (bool_decide_eq_false_2 (p ≠ p)) by auto. rewrite app_nil_r.
  induction l as [|x l IH]; [done|]. simpl.
  apply not_elem_of_cons in Hp as [Hne Hp].
  rewrite (bool_decide_eq_true_2 (x ≠ p)) by auto. by rewrite IH.
Qed.

Lemma filter_ne_absent (p : string) (l : list string) :
  p ∉ l → List.filter (λ priv, bool_decide (priv ≠ p)) l = l.
Proof.
  intros Hp. induction l as [|x l IH]; [done|]. simpl.
  apply not_elem_of_cons in Hp as [Hne Hp].
  rewrite (bool_decide_eq_true_2 (x ≠ p)) by auto. by rewrite IH.
Qed.

Lemma filter_ne_twice {A} (P : A → bool) (l : list A) :
  List.filter P (List.filter P l) = List.filter P l.
Proof.
  induction l as [|x l IH]; [done|]. simpl.
  destruct (P x) eqn:Hx; simpl; [by rewrite Hx, IH | done].
Qed.

Section PrivilegesOverRenders.
Context `{G : Generated} `{PU : !PolicyUtils}.
Variables (props : Props) (h : Hooks).

(** Selecting a privilege that is not yet selected and deselecting it in
    the next render reports the privileges one started from. *)
Theorem privilege_select_then_deselect (p : string) :
  p ≠ "All" → p ∉ privileges props →
  ∃ newPrivs,
    onSelectPrivilege props h p = [setPrivileges newPrivs]
    ∧ onDeselectPrivilege (withPrivileges props newPrivs) p
      = [setPrivileges (privileges props)].
Proof.
  intros Hall Hp. exists (privileges props ++ [p]).
  split; [by apply onSelectPrivilege_other|].
  unfold onDeselectPrivilege. rewrite decide_False by done. simpl.
  by rewrite filter_ne_snoc.
Qed.

(** Deselecting a privilege that is not selected reports the privileges
    unchanged, and deselecting the same privilege again in the next render
    reports the same list again.  Deselecting [All] is different: also when
    [All] is not among the privileges it reports the empty list, so a list
    that was not empty is cleared and not kept. *)
Theorem privilege_deselect_again (p : string) :
  (p ≠ "All" → p ∉ privileges props →
   onDeselectPrivilege props p = [setPrivileges (privileges props)])
  ∧ (∀ newPrivs,
       onDeselectPrivilege props p = [setPrivileges newPrivs] →
       onDeselectPrivilege (withPrivileges props newPrivs) p
       = [setPrivileges newPrivs])
  ∧ ("All" ∉ privileges props → privileges props ≠ [] →
     onDeselectPrivilege props "All" = [setPrivileges []]
     ∧ onDeselectPrivilege props "All" ≠ [setPrivileges (privileges props)]).
Proof.
  unfold onDeselectPrivilege. split; [|split].
  - intros Hall Hp. rewrite decide_False by done. by rewrite filter_ne_absent.
  - intros newPrivs. destruct (decide (p = "All")) as [Heq|Hne].
    + by intros [= <-].
    + intros [= <-]. simpl. by rewrite filter_ne_twice.
  - intros _ Hne. rewrite decide_True by done. split; [done|].
    intros [= Heq]. by symmetry in Heq.
Qed.

End PrivilegesOverRenders.

Lemma privilege_select_then_deselect_witness :
  ("EDIT_ENTITY_OWNERS" ≠ "All"
   ∧ "EDIT_ENTITY_OWNERS" ∉ privileges metadataProps)
  ∧ ∃ newPrivs,
      onSelectPrivilege metadataProps hooks "EDIT_ENTITY_OWNERS"
        = [setPrivileges newPrivs]
      ∧ onDeselectPrivilege (withPrivileges metadataProps newPrivs)
          "EDIT_ENTITY_OWNERS"
        = [setPrivileges ["VIEW_ENTITY_PAGE"; "EDIT_ENTITY_TAGS"]].
Proof.
  assert (Hp : "EDIT_ENTITY_OWNERS" ∉ privileges metadataProps).
  { simpl. rewrite !not_elem_of_cons. repeat split; [done..|]. apply not_elem_of_nil. }
  split; [done|].
  by apply (privilege_select_then_deselect metadataProps hooks "EDIT_ENTITY_OWNERS").
Defined.

Lemma privilege_deselect_again_witness :
  ("MANAGE_POLICIES" ≠ "All"
   ∧ ("MANAGE_POLICIES" ∉ privileges metadataProps)
   ∧ ("All" ∉ privileges metadataProps)
   ∧ privileges metadataProps ≠ [])
  ∧ onDeselectPrivilege metadataProps "MANAGE_POLICIES"
    = [setPrivileges ["VIEW_ENTITY_PAGE"; "EDIT_ENTITY_TAGS"]]
  ∧ onDeselectPrivilege metadataProps "All" = [setPrivileges []]
  ∧ onDeselectPrivilege metadataProps "All"
    ≠ [setPrivileges (privileges metadataProps)].
Proof.
  assert (Hp : "MANAGE_POLICIES" ∉ privileges metadataProps).
  { simpl. rewrite !not_elem_of_cons. repeat split; [done..|]. apply not_elem_of_nil. }
  assert (Hall : "All" ∉ privileges metadataProps).
  { simpl. rewrite !not_elem_of_cons. repeat split; [done..|]. apply not_elem_of_nil. }
  assert (Hne : privileges metadataProps ≠ []) by done.
  split; [done|].
  destruct (privilege_deselect_again metadataProps "MANAGE_POLICIES")
    as (Habsent & _ & Hclear).
  split; [by apply Habsent | exact (Hclear Hall Hne)].
Defined.

(** ** The entity of a selected value *)

Section SelectedEntity.
Context `{G : Generated} `{PU : !PolicyUtils}.
Variables (props : Props) (h : Hooks).

Lemma find_urn_Some (u : string) (es : list Entity) (e : Entity) :
  List.find (λ e, bool_decide (urn e = u)) es = Some e →
  urn e = u ∧ e ∈ es.
Proof.
  intros Hfind. apply List.find_some in Hfind as [Hin Hurn].
  split; [by apply bool_decide_eq_true in Hurn | by apply list_elem_of_In].
Qed.

Lemma find_urn_None (u : string) (es : list Entity) :
  List.find (λ e, bool_decide (urn e = u)) es = None ↔ ∀ e, e ∈ es → urn e ≠ u.
Proof.
  split.
  - intros Hfind e Hin Hurn. apply list_elem_of_In in Hin.
    pose proof (List.find_none _ _ Hfind e Hin) as Hno. simpl in Hno.
    by rewrite bool_decide_eq_true_2 in Hno.
  - intros Hall. induction es as [|e es IH]; [done|]. simpl.
    rewrite bool_decide_eq_false_2 by (apply Hall; left).
    apply IH. intros e' Hin. apply Hall. by right.
Qed.

Lemma getEntity_first_match (searchResults : option (list SearchResult))
    (u : string) (before : list SearchResult) (result : SearchResult)
    (after : list SearchResult) :
  searchResults = Some (before ++ result :: after) →
  (∀ result', result' ∈ before → urn (result_entity result') ≠ u) →
  urn (result_entity result) = u →
  getEntityFromSearchResults searchResults u = Some (result_entity result).
Proof.
  intros -> Hbefore Hurn. simpl.
  induction before as [|r before IH]; simpl.
  - by rewrite bool_decide_eq_true_2.
  - rewrite bool_decide_eq_false_2 by (apply Hbefore; left).
    apply IH. intros result' Hin. apply Hbefore. by right.
Qed.

(** [getEntityFromSearchResults] finds nothing without search data; what it
    finds is the entity of a search result and has the urn asked for; with
    search data it finds nothing exactly when no result has that urn, and
    otherwise the entity of the first result that has it. *)
Theorem getEntityFromSearchResults_finds
    (searchResults : option (list SearchResult)) (u : string) :
  (searchResults = None → getEntityFromSearchResults searchResults u = None)
  ∧ (∀ e, getEntityFromSearchResults searchResults u = Some e →
          urn e = u
          ∧ ∃ rs result, searchResults = Some rs ∧ result ∈ rs
                         ∧ result_entity result = e)
  ∧ (∀ rs, searchResults = Some rs →
           (getEntityFromSearchResults searchResults u = None
            ↔ ∀ result, result ∈ rs → urn (result_entity result) ≠ u))
  ∧ (∀ before result after,
       searchResults = Some (before ++ result :: after) →
       (∀ result', result' ∈ before → urn (result_entity result') ≠ u) →
       urn (result_entity result) = u →
       getEntityFromSearchResults searchResults u = Some (result_entity result)).
Proof.
  split; [by intros ->|]. split; [|split; [|apply getEntity_first_match]].
  - intros e. destruct searchResults as [rs|]; [|done]. simpl. intros Hfind.
    apply find_urn_Some in Hfind as [Hurn Hin]. split; [done|].
    apply list_elem_of_In, List.in_map_iff in Hin as (result & Heq & Hin).
    exists rs, result. by rewrite <- list_elem_of_In in Hin.
  - intros rs ->. simpl. rewrite find_urn_None. split.
    + intros Hall result Hin. apply Hall.
      apply list_elem_of_In, List.in_map. by apply list_elem_of_In.
    + intros Hall e Hin.
      apply list_elem_of_In, List.in_map_iff in Hin as (result & <- & Hin).
      apply Hall. by apply list_elem_of_In.
Qed.

Lemma searchResultOptions_resolved (searchResults : option (list SearchResult))
    (o : SelectOption) :
  o ∈ searchResultOptions h searchResults →
  ∃ e, getEntityFromSearchResults searchResults (option_value o) = Some e
       ∧ urn e = option_value o.
Proof.
  destruct searchResults as [rs|]; simpl; [|by intros ?%elem_of_nil].
  intros Hin. apply list_elem_of_In, List.in_map_iff in Hin as (result & <- & Hin).
  simpl. destruct (List.find _ _) as [e|] eqn:Hfind.
  - exists e. split; [done|]. by apply find_urn_Some in Hfind as [? _].
  - exfalso. rewrite find_urn_None in Hfind.
    apply (Hfind (result_entity result)); [|done].
    by apply list_elem_of_In, List.in_map.
Qed.

(** Every option offered by the resource select and by the domain select
    resolves: selecting its value finds an entity of that urn in the search
    results the option came from. *)
Theorem offered_options_resolve (o : SelectOption) :
  (o ∈ searchResultOptions h (resourceSearchResults h) →
   ∃ e, getEntityFromSearchResults (resourceSearchResults h) (option_value o) = Some e
        ∧ urn e = option_value o)
  ∧ (o ∈ searchResultOptions h (domainSearchResults h) →
     ∃ e, getEntityFromSearchResults (domainSearchResults h) (option_value o) = Some e
          ∧ urn e = option_value o).
Proof. split; apply searchResultOptions_resolved. Qed.

Lemma onSelectResource_field (resource : string) :
  ReadsBackWhatIsSet PU →
  ∃ r, onSelectResource props h resource = [setResources r]
       ∧ fieldValues r "URN"
         = fieldValues (resources props) "URN"
           ++ [createCriterionValueWithEntity resource
                 (getEntityFromSearchResults (resourceSearchResults h) resource)].
Proof.
  intros Hlaw. eexists. split; [reflexivity|].
  by rewrite fieldValues_withFilter.
Qed.

Lemma onSelectDomain_field (domainUrn : string) (domainObj : option Entity) :
  ReadsBackWhatIsSet PU →
  ∃ r, onSelectDomain props h domainUrn domainObj = [setResources r]
       ∧ fieldValues r "DOMAIN"
         = fieldValues (resources props) "DOMAIN"
           ++ [createCriterionValueWithEntity domainUrn
                 (match domainObj with
                  | Some d => Some d
                  | None => getEntityFromSearchResults (domainSearchResults h) domainUrn
                  end)].
Proof.
  intros Hlaw. eexists. split; [reflexivity|].
  by rewrite fieldValues_withFilter.
Qed.

(** Selecting a resource reports a URN field that holds the current values,
    in their order, followed by one criterion value for the resource; its
    entity is the one found in the resource search results, so it is
    missing when there is no search data, and has the urn of the resource
    otherwise. *)
Theorem onSelectResource_appends (resource : string) :
  ReadsBackWhatIsSet PU → CreatesValueWithEntity PU →
  ∃ r cv,
    onSelectResource props h resource = [setResources r]
    ∧ fieldValues r "URN" = fieldValues (resources props) "URN" ++ [cv]
    ∧ value cv = resource
    ∧ entity cv = getEntityFromSearchResults (resourceSearchResults h) resource
    ∧ (resourceSearchResults h = None → entity cv = None)
    ∧ (∀ e, entity cv = Some e → urn e = resource).
Proof.
  intros Hlaw Hcreate.
  destruct (onSelectResource_field resource Hlaw) as (r & Hev & Hfield).
  destruct (Hcreate resource
              (getEntityFromSearchResults (resourceSearchResults h) resource))
    as [Hvalue Hentity].
  eexists r, _. split; [exact Hev|]. split; [exact Hfield|].
  split; [exact Hvalue|]. split; [exact Hentity|]. rewrite Hentity. split.
  - by intros ->.
  - intros e He. unfold getEntityFromSearchResults in He.
    destruct (resourceSearchResults h); [|done].
    by apply find_urn_Some in He as [? _].
Qed.

(** Selecting a domain reports a DOMAIN field that holds the current values
    followed by one criterion value for the domain.  A domain object passed
    with the urn (by the domain browser) is the entity, whatever the search
    results hold; without one the entity is looked up in the domain search
    results. *)
Theorem onSelectDomain_appends (domainUrn : string) (domainObj : option Entity) :
  ReadsBackWhatIsSet PU → CreatesValueWithEntity PU →
  ∃ r cv,
    onSelectDomain props h domainUrn domainObj = [setResources r]
    ∧ fieldValues r "DOMAIN" = fieldValues (resources props) "DOMAIN" ++ [cv]
    ∧ value cv = domainUrn
    ∧ (∀ d, domainObj = Some d → entity cv = Some d)
    ∧ (domainObj = None →
       entity cv = getEntityFromSearchResults (domainSearchResults h) domainUrn).
Proof.
  intros Hlaw Hcreate.
  destruct (onSelectDomain_field domainUrn domainObj Hlaw) as (r & Hev & Hfield).
  eexists r, _. split; [exact Hev|]. split; [exact Hfield|].
  destruct (Hcreate domainUrn
              (match domainObj with
               | Some d => Some d
               | None => getEntityFromSearchResults (domainSearchResults h) domainUrn
               end)) as [Hvalue Hentity].
  split; [exact Hvalue|]. rewrite Hentity. split; [by intros d ->|by intros ->].
Qed.

End SelectedEntity.

(** ** The resource filter, over renders *)

Lemma withoutValue_absent `{G : Generated} (v : string)
    (l : list PolicyMatchCriterionValue) :
  v ∉ map value l → withoutValue v l = l.
Proof.
  unfold withoutValue. induction l as [|cv l IH]; [done|]. simpl. intros Hv.
  apply not_elem_of_cons in Hv as [Hne Hv].
  rewrite (bool_decide_eq_true_2 (value cv ≠ v)) by auto. by rewrite IH.
Qed.

Lemma withoutValue_snoc `{G : Generated} (v : string)
    (l : list PolicyMatchCriterionValue) (cv : PolicyMatchCriterionValue) :
  value cv = v → withoutValue v (l ++ [cv]) = withoutValue v l.
Proof.
  intros Hcv. unfold withoutValue. rewrite List.filter_app. simpl.
  rewrite (bool_decide_eq_false_2 (value cv ≠ v)) by auto. apply app_nil_r.
Qed.

Section FilterOverRenders.
Context `{G : Generated} `{PU : !PolicyUtils}.
Variables (props : Props) (h : Hooks).

(** The next render works on the resource filter reported, when that has a
    filter. *)
Lemma resources_withResources (r : ResourceFilter) (f : PolicyMatchFilter) :
  KeepsFilter PU → filter r = Some f → resources (withResources props r) = r.
Proof. intros Hkeep Hf. unfold resources. simpl. by rewrite (Hkeep r f Hf). Qed.

Lemma select_then_deselect_field (k v : string)
    (cv : PolicyMatchCriterionValue) (r : ResourceFilter) :
  ReadsBackWhatIsSet PU → KeepsFilter PU →
  value cv = v →
  r = withFilter props
        (setFieldValues (filterOrEmpty props) k (fieldValues (resources props) k ++ [cv])) →
  fieldValues
    (withFilter (withResources props r)
       (setFieldValues (filterOrEmpty (withResources props r)) k
          (withoutValue v (fieldValues (resources (withResources props r)) k)))) k
  = withoutValue v (fieldValues (resources props) k).
Proof.
  intros Hlaw Hkeep Hcv ->. rewrite fieldValues_withFilter by done.
  erewrite resources_withResources by done.
  rewrite fieldValues_withFilter by done. by apply withoutValue_snoc.
Qed.

(** Selecting a value in one of the three filter inputs and deselecting it
    in the next render reports the field without that value: the values
    one started from, when the value was not among them. *)
Theorem select_then_deselect_restores (v : string) :
  ReadsBackWhatIsSet PU → KeepsFilter PU →
  CreatesValue PU → CreatesValueWithEntity PU →
  (∃ r r',
     onSelectResourceType props v = [setResources r]
     ∧ onDeselectResourceType (withResources props r) v = [setResources r']
     ∧ fieldValues r' "TYPE" = withoutValue v (fieldValues (resources props) "TYPE")
     ∧ (v ∉ map value (fieldValues (resources props) "TYPE") →
        fieldValues r' "TYPE" = fieldValues (resources props) "TYPE"))
  ∧ (∃ r r',
       onSelectResource props h v = [setResources r]
       ∧ onDeselectResource (withResources props r) v = [setResources r']
       ∧ fieldValues r' "URN" = withoutValue v (fieldValues (resources props) "URN")
       ∧ (v ∉ map value (fieldValues (resources props) "URN") →
          fieldValues r' "URN" = fieldValues (resources props) "URN"))
  ∧ (∀ domainObj, ∃ r r',
       onSelectDomain props h v domainObj = [setResources r]
       ∧ onDeselectDomain (withResources props r) v = [setResources r']
       ∧ fieldValues r' "DOMAIN" = withoutValue v (fieldValues (resources props) "DOMAIN")
       ∧ (v ∉ map value (fieldValues (resources props) "DOMAIN") →
          fieldValues r' "DOMAIN" = fieldValues (resources props) "DOMAIN")).
Proof.
  intros Hlaw Hkeep Hvalue Hentity.
  split; [|split; [|intros domainObj]]; eexists _, _;
    (split; [reflexivity|]); (split; [reflexivity|]).
  - split.
    + eapply (select_then_deselect_field "TYPE" v); [exact Hlaw|exact Hkeep|..].
      2: reflexivity. apply Hvalue.
    + intros Hv. rewrite <- (withoutValue_absent v) by done.
      eapply (select_then_deselect_field "TYPE" v); [exact Hlaw|exact Hkeep|..].
      2: reflexivity. apply Hvalue.
  - split.
    + eapply (select_then_deselect_field "URN" v); [exact Hlaw|exact Hkeep|..].
      2: reflexivity. apply Hentity.
    + intros Hv. rewrite <- (withoutValue_absent v) by done.
      eapply (select_then_deselect_field "URN" v); [exact Hlaw|exact Hkeep|..].
      2: reflexivity. apply Hentity.
  - split.
    + eapply (select_then_deselect_field "DOMAIN" v); [exact Hlaw|exact Hkeep|..].
      2: reflexivity. apply Hentity.
    + intros Hv. rewrite <- (withoutValue_absent v) by done.
      eapply (select_then_deselect_field "DOMAIN" v); [exact Hlaw|exact Hkeep|..].
      2: reflexivity. apply Hentity.
Qed.

(** Deselecting a value that the field does not hold reports the field with
    the values it has. *)
Theorem deselect_absent_keeps_field (v : string) :
  ReadsBackWhatIsSet PU →
  (v ∉ map value (fieldValues (resources props) "TYPE") →
   ∃ r, onDeselectResourceType props v = [setResources r]
        ∧ fieldValues r "TYPE" = fieldValues (resources props) "TYPE")
  ∧ (v ∉ map value (fieldValues (resources props) "URN") →
     ∃ r, onDeselectResource props v = [setResources r]
          ∧ fieldValues r "URN" = fieldValues (resources props) "URN")
  ∧ (v ∉ map value (fieldValues (resources props) "DOMAIN") →
     ∃ r, onDeselectDomain props v = [setResources r]
          ∧ fieldValues r "DOMAIN" = fieldValues (resources props) "DOMAIN").
Proof.
  intros Hlaw. repeat split; intros Hv; eexists; (split; [reflexivity|]);
    rewrite fieldValues_withFilter by done; by apply withoutValue_absent.
Qed.

(** An event of one filter input leaves the values of the other two fields
    as they are read. *)
Theorem filter_events_keep_other_fields (ev : FilterEvent) (k : string) :
  ReadsOtherFields PU → ReadsMissingAsEmpty PU →
  k ≠ eventField ev →
  ∃ r, handleFilterEvent props h ev = [setResources r]
       ∧ fieldValues r k = fieldValues (resources props) k.
Proof.
  intros Hother Hmissing Hk.
  destruct (handleFilterEvent_shape props h ev) as [vs Hev].
  eexists. split; [exact Hev|]. unfold fieldValues. simpl.
  rewrite Hother by done. unfold filterOrEmpty.
  destruct (filter (resources props)); simpl; [done|]. by rewrite Hmissing.
Qed.

End FilterOverRenders.

(** ** Trimmed texts *)

Lemma chars_app (s1 s2 : string) :
  list_ascii_of_string (s1 +:+ s2)
  = list_ascii_of_string s1 ++ list_ascii_of_string s2.
Proof. induction s1 as [|c s1 IH]; simpl; [done|]. by rewrite IH. Qed.

Lemma chars_inj (s1 s2 : string) :
  list_ascii_of_string s1 = list_ascii_of_string s2 → s1 = s2.
Proof.
  intros Heq. rewrite <- (string_of_list_ascii_of_string s1).
  rewrite Heq. apply string_of_list_ascii_of_string.
Qed.

Lemma chars_rev_app (s1 s2 : string) :
  list_ascii_of_string (String.rev_app s1 s2)
  = rev (list_ascii_of_string s1) ++ list_ascii_of_string s2.
Proof.
  revert s2. induction s1 as [|c s1 IH]; intros s2; simpl; [done|].
  rewrite IH. simpl. by rewrite <- app_assoc.
Qed.

Lemma chars_rev (s : string) :
  list_ascii_of_string (String.rev s) = rev (list_ascii_of_string s).
Proof. unfold String.rev. rewrite chars_rev_app. simpl. apply app_nil_r. Qed.

Lemma string_rev_involutive (s : string) : String.rev (String.rev s) = s.
Proof. apply chars_inj. rewrite !chars_rev. apply rev_involutive. Qed.

(** [trimStart] removes a prefix of white space. *)
Lemma trimStart_split (s : string) :
  ∃ pre, s = pre +:+ JsString.trimStart s ∧ allWhiteSpace pre.
Proof.
  induction s as [|c s (pre & Hs & Hpre)]; simpl.
  - exists "". split; [done|constructor].
  - destruct (JsString.isWhiteSpace c) eqn:Hc.
    + exists (String c pre).
      split; [change (String c s = String c (pre +:+ JsString.trimStart s));
              congruence|].
      by constructor.
    + exists "". split; [done|constructor].
Qed.

Lemma trimStart_fixed (s : string) :
  (∀ c s', s = String c s' → JsString.isWhiteSpace c = false) →
  JsString.trimStart s = s.
Proof.
  intros Hhead. destruct s as [|c s]; [done|]. simpl.
  by rewrite (Hhead c s eq_refl).
Qed.

Lemma trimStart_empty (s : string) :
  JsString.trimStart s = "" ↔ allWhiteSpace s.
Proof.
  unfold allWhiteSpace. induction s as [|c s IH]; simpl.
  - split; [constructor|done].
  - destruct (JsString.isWhiteSpace c) eqn:Hc.
    + rewrite IH. split; [by constructor|by inversion 1].
    + split; [done|]. inversion 1; congruence.
Qed.

Lemma allWhiteSpace_rev (s : string) :
  allWhiteSpace (String.rev s) ↔ allWhiteSpace s.
Proof.
  unfold allWhiteSpace. rewrite chars_rev. split; intros Hall.
  - rewrite <- rev_involutive. by apply List.Forall_rev.
  - by apply List.Forall_rev.
Qed.

Lemma string_rev_empty (s : string) : String.rev s = "" ↔ s = "".
Proof.
  split; [|by intros ->]. intros Hrev.
  rewrite <- (string_rev_involutive s). by rewrite Hrev.
Qed.

(** The trimmed text is the text between a prefix and a suffix of white
    space, and has no white space at its ends. *)
Lemma trim_split (s : string) :
  ∃ pre post,
    s = pre +:+ JsString.trim s +:+ post
    ∧ allWhiteSpace pre ∧ allWhiteSpace post
    ∧ noWhiteSpaceAtEnds (JsString.trim s).
Proof.
  unfold JsString.trim, JsString.trimEnd.
  destruct (trimStart_split s) as (pre & Hs & Hpre).
  set (t := JsString.trimStart s) in *.
  destruct (trimStart_split (String.rev t)) as (erp & Ht & Herp).
  set (u := JsString.trimStart (String.rev t)) in *.
  assert (Hchars : list_ascii_of_string t
                   = list_ascii_of_string (String.rev u)
                     ++ list_ascii_of_string (String.rev erp)).
  { rewrite <- (string_rev_involutive t), Ht.
    by rewrite !chars_rev, chars_app, rev_app_distr. }
  assert (Hsplit : t = String.rev u +:+ String.rev erp).
  { apply chars_inj. by rewrite chars_app. }
  exists pre, (String.rev erp).
  split; [by rewrite <- Hsplit|]. split; [done|].
  split; [by apply allWhiteSpace_rev|]. split.
  - intros c s' Hrev. rewrite Hrev in Hsplit. simpl in Hsplit.
    by apply (trimStart_head s c (s' +:+ String.rev erp)).
  - intros s' c Hrev.
    assert (Hu : u = String c (String.rev s')).
    { rewrite <- (string_rev_involutive u), Hrev. apply chars_inj.
      rewrite chars_rev, chars_app. simpl. rewrite rev_app_distr. simpl.
      by rewrite chars_rev. }
    by apply (trimStart_head (String.rev t) c (String.rev s')).
Qed.

Lemma trim_fixed (s : string) :
  noWhiteSpaceAtEnds s → JsString.trim s = s.
Proof.
  intros [Hhead Hlast]. unfold JsString.trim, JsString.trimEnd.
  rewrite (trimStart_fixed s) by done.
  rewrite trimStart_fixed; [apply string_rev_involutive|].
  intros c s' Hrev. apply (Hlast (String.rev s')).
  rewrite <- (string_rev_involutive s), Hrev. apply chars_inj.
  rewrite chars_rev, chars_app. simpl. by rewrite chars_rev.
Qed.

Lemma trim_empty (s : string) : JsString.trim s = "" ↔ allWhiteSpace s.
Proof.
  unfold JsString.trim, JsString.trimEnd.
  rewrite string_rev_empty, trimStart_empty, allWhiteSpace_rev. split.
  - intros Hall. apply trimStart_empty. apply trimStart_empty in Hall as Htwice.
    destruct (JsString.trimStart s) as [|c t] eqn:Ht; [done|].
    apply trimStart_head in Ht. inversion Hall; congruence.
  - intros Hall. apply trimStart_empty in Hall. rewrite Hall. constructor.
Qed.

Lemma queryOf_nonempty (trimmedText : string) : queryOf trimmedText ≠ "".
Proof.
  unfold queryOf. destruct (decide _) as [Hlen|_]; [|done].
  intros ->. simpl in Hlen. lia.
Qed.

Section SearchTexts.
Context `{G : Generated} `{PU : !PolicyUtils}.
Variables (props : Props) (h : Hooks).

(** Both searches work on the text without the white space at its ends: the
    text is a prefix of white space, the stored text and a suffix of white
    space, and the stored text has no white space at its ends.  The query
    is never empty: it is the stored text when that has more than two
    characters and ["*"] otherwise, so also for a text of white space
    only.  Searching for the stored text makes the same calls again. *)
Theorem search_text_is_trimmed (text : string) :
  ∃ pre post stored query,
    handleDomainSearch text
      = [setDomainInputValue stored;
         searchDomains {| s_type := EntityType_Domain; s_query := query;
                          s_start := 0; s_count := 10 |}]
    ∧ (∃ types,
         handleResourceSearch props h text
         = [searchResources {| sa_types := types; sa_query := query;
                               sa_start := 0; sa_count := 10 |}])
    ∧ text = pre +:+ stored +:+ post
    ∧ allWhiteSpace pre ∧ allWhiteSpace post
    ∧ noWhiteSpaceAtEnds stored
    ∧ query ≠ ""
    ∧ (query = "*" ∧ String.length stored ≤ 2
       ∨ query = stored ∧ 2 < String.length stored)
    ∧ (allWhiteSpace text → stored = "" ∧ query = "*")
    ∧ handleDomainSearch stored = handleDomainSearch text.
Proof.
  destruct (trim_split text) as (pre & post & Htext & Hpre & Hpost & Hends).
  exists pre, post, (JsString.trim text), (queryOf (JsString.trim text)).
  split; [reflexivity|]. split; [by eexists|]. split; [exact Htext|].
  split; [exact Hpre|]. split; [exact Hpost|]. split; [exact Hends|].
  split; [apply queryOf_nonempty|].
  destruct (queryOf_spec (JsString.trim text)) as [Hlong Hshort].
  split; [|split].
  - destruct (decide (2 < String.length (JsString.trim text))); [right|left].
    + by rewrite Hlong.
    + split; [apply Hshort|]; lia.
  - intros Hall. apply trim_empty in Hall. by rewrite Hall.
  - unfold handleDomainSearch. by rewrite (trim_fixed (JsString.trim text)).
Qed.

(** The entity types of a resource search follow the selected resource
    types: there are at most as many, and none when no resource type is
    selected or when no selected type has a mapping. *)
Theorem resource_search_types (text : string) :
  ∃ input,
    handleResourceSearch props h text = [searchResources input]
    ∧ length (sa_types input) ≤ length (resourceTypes props)
    ∧ (resourceTypes props = [] → sa_types input = [])
    ∧ ((∀ resourceType,
          resourceType ∈ map value (resourceTypes props) →
          mapResourceTypeToEntityType resourceType (the_resourcePrivileges h) = None) →
       sa_types input = []).
Proof.
  eexists. split; [reflexivity|]. cbn [sa_types].
  unfold resourceTypeSelectValue. rewrite omap_id_map.
  assert (Hlen : length (map value (resourceTypes props))
                 = length (resourceTypes props)) by apply length_map.
  split; [|split].
  - rewrite <- Hlen. generalize (map value (resourceTypes props)) as l.
    induction l as [|t l IH]; [done|]. cbn [omap list_omap].
    destruct (mapResourceTypeToEntityType _ _); simpl in *; lia.
  - by intros ->.
  - generalize (map value (resourceTypes props)) as l.
    induction l as [|t l IH]; [done|]. intros Hnone. cbn [omap list_omap].
    rewrite (Hnone t) by left. apply IH. intros t' Hin. apply Hnone. by right.
Qed.

End SearchTexts.

(** ** The local state, event by event *)

Section StateEvents.
Context `{G : Generated} `{PU : !PolicyUtils}.
Variables (props : Props) (h : Hooks) (st : UiState).

(** A domain search stores the trimmed text and leaves the focus flag: the
    navigator is shown afterwards exactly when the flag is set and the text
    typed is white space only. *)
Theorem domain_search_state (text : string) :
  domainInputValue (applyEffects st (handleDomainSearch text)) = JsString.trim text
  ∧ isFocusedOnInput (applyEffects st (handleDomainSearch text)) = isFocusedOnInput st
  ∧ (isShowingDomainNavigator (applyEffects st (handleDomainSearch text)) = true
     ↔ isFocusedOnInput st = true ∧ allWhiteSpace text).
Proof.
  split; [done|]. split; [done|].
  rewrite isShowingDomainNavigator_iff. simpl. by rewrite trim_empty.
Qed.

(** A blur does not close the navigator: after it the navigator is shown
    exactly when the focus flag was set, whatever the text was; so it is
    shown after a focus followed by a blur.  A focus shows the navigator
    exactly when the text is empty. *)
Theorem blur_keeps_navigator :
  isShowingDomainNavigator (applyEffects st handleBlur) = isFocusedOnInput st
  ∧ isShowingDomainNavigator
      (applyEffects (applyEffects st handleFocus) handleBlur) = true
  ∧ (isShowingDomainNavigator (applyEffects st handleFocus) = true
     ↔ domainInputValue st = "").
Proof.
  split; [done|]. split; [done|].
  rewrite isShowingDomainNavigator_iff. simpl. tauto.
Qed.

(** A click outside changes nothing at once; when the callback of its timer
    has run, the focus flag is reset, the text is kept and the navigator is
    hidden. *)
Theorem click_outside_closes_later :
  applyEffects st handleCLickOutside = st
  ∧ isFocusedOnInput (fireTimeouts st handleCLickOutside) = false
  ∧ domainInputValue (fireTimeouts st handleCLickOutside) = domainInputValue st
  ∧ isShowingDomainNavigator (fireTimeouts st handleCLickOutside) = false
  ∧ browserIsHidden (fireTimeouts st handleCLickOutside) = true.
Proof.
  repeat split; try done; unfold browserIsHidden, isShowingDomainNavigator; simpl;
    by rewrite andb_false_r.
Qed.

(** Selecting a domain in the browser reports what selecting its urn with
    the domain object reports, and then resets the focus flag: the
    navigator is hidden afterwards and the text is kept. *)
Theorem select_from_browser_closes (domain : Entity) :
  ∃ r,
    onSelectDomain props h (urn domain) (Some domain) = [setResources r]
    ∧ selectDomainFromBrowser props h domain
      = [setResources r; setIsFocusedOnInput false]
    ∧ isFocusedOnInput (applyEffects st (selectDomainFromBrowser props h domain))
      = false
    ∧ domainInputValue (applyEffects st (selectDomainFromBrowser props h domain))
      = domainInputValue st
    ∧ browserIsHidden (applyEffects st (selectDomainFromBrowser props h domain))
      = true.
Proof.
  eexists. split; [reflexivity|]. split; [reflexivity|].
  split; [done|]. split; [done|].
  unfold browserIsHidden, isShowingDomainNavigator. simpl.
  by rewrite andb_false_r.
Qed.

(** The handlers of the privileges, of the resource filter and of the
    resource search never write the local state. *)
Theorem handlers_keep_state (p text : string) (ev : FilterEvent) :
  applyEffects st (onSelectPrivilege props h p) = st
  ∧ applyEffects st (onDeselectPrivilege props p) = st
  ∧ applyEffects st (handleFilterEvent props h ev) = st
  ∧ applyEffects st (handleResourceSearch props h text) = st.
Proof.
  split; [|split; [|split]]; try done.
  - unfold onSelectPrivilege. by destruct (decide _).
  - by destruct (handleFilterEvent_shape props h ev) as [vs ->].
Qed.

End StateEvents.

(** ** Shortened strings *)

Lemma substring_0_app (pre post : string) :
  String.substring 0 (String.length pre) (pre +:+ post) = pre.
Proof.
  induction pre as [|c pre IH]; simpl.
  - by destruct post.
  - by rewrite IH.
Qed.

(** Shortening is idempotent, but it does not always shorten: the result
    never has more than [L + 3] characters, being the string itself when
    that has at most [L] and having exactly [L + 3] otherwise, and it is
    longer than the string exactly when that has one or two characters
    more than [L]. *)
Theorem displayStringWithMaxLength_again (s : string) (L : nat) :
  displayStringWithMaxLength (displayStringWithMaxLength s L) L
    = displayStringWithMaxLength s L
  ∧ String.length (displayStringWithMaxLength s L) ≤ L + 3
  ∧ (String.length s ≤ L ∧ displayStringWithMaxLength s L = s
     ∨ L < String.length s
       ∧ String.length (displayStringWithMaxLength s L) = L + 3)
  ∧ (String.length s < String.length (displayStringWithMaxLength s L)
     ↔ L < String.length s < L + 3).
Proof.
  destruct (decide (String.length s ≤ L)) as [Hshort|Hlong].
  - rewrite !(displayStringWithMaxLength_short s L) by done. split; [done|].
    split; [lia|]. split; [by left|lia].
  - destruct (displayStringWithMaxLength_long s L) as (pre & post & Hs & Hpre & Heq & Hlen);
      [lia|].
    rewrite Hlen. split; [|split; [lia|split; [right; lia|lia]]].
    rewrite Heq. unfold displayStringWithMaxLength.
    rewrite string_length_app, Hpre. simpl.
    rewrite decide_True by lia. rewrite Nat.min_l by lia.
    rewrite JsString_substring_0 by (rewrite string_length_app, Hpre; lia).
    rewrite <- Hpre at 1. by rewrite substring_0_app.
Qed.

(** ** Tags and display names *)

Section TagsOverRenders.
Context `{G : Generated} `{PU : !PolicyUtils}.
Variables (props : Props) (h : Hooks).

Lemma urnToDisplayName_is_Some (l : list PolicyMatchCriterionValue) (v : string) :
  is_Some (urnToDisplayName h l !! v) ↔ v ∈ map value l.
Proof.
  rewrite urnToDisplayName_lookup, fmap_is_Some.
  induction l as [|cv l IH] using rev_ind.
  - simpl. split; [by intros [? ?]|by intros ?%elem_of_nil].
  - rewrite List.filter_app, List.map_app, elem_of_app. simpl.
    destruct (decide (value cv = v)) as [Heq|Hne].
    + rewrite bool_decide_eq_true_2 by done. rewrite last_snoc.
      split; [intros _; right; rewrite Heq; left|by eexists].
    + rewrite bool_decide_eq_false_2 by done. rewrite app_nil_r, IH.
      split; [by left|]. intros [Hin|Hin]; [done|].
      apply list_elem_of_singleton in Hin. congruence.
Qed.

Lemma filter_value_none (v : string) (l : list PolicyMatchCriterionValue) :
  (∀ cv, cv ∈ l → value cv ≠ v) →
  List.filter (λ cv, bool_decide (value cv = v)) l = [].
Proof.
  induction l as [|cv l IH]; [done|]. intros Hall. simpl.
  rewrite bool_decide_eq_false_2 by (apply Hall; left).
  apply IH. intros cv' Hin. apply Hall. by right.
Qed.

(** Among the criterion values of one value, wherever they are in the
    list, the one that comes last decides the property of that value. *)
Lemma urnToDisplayName_last (l before after : list PolicyMatchCriterionValue)
    (cv : PolicyMatchCriterionValue) :
  l = before ++ cv :: after →
  (∀ cv', cv' ∈ after → value cv' ≠ value cv) →
  urnToDisplayName h l !! value cv = Some (getDisplayName h (entity cv)).
Proof.
  intros -> Hafter. rewrite urnToDisplayName_lookup.
  rewrite List.filter_app. simpl.
  rewrite bool_decide_eq_true_2 by done.
  rewrite (filter_value_none (value cv) after Hafter). by rewrite last_snoc.
Qed.

(** The display name objects have a property for exactly the selected
    values of their input, and among the criterion values of one value,
    wherever they are in the list, the one that comes last decides the
    property: the display name of its entity, or [null] when it has
    none. *)
Theorem display_names_by_value (v : string) :
  (is_Some (resourceUrnToDisplayName props h !! v) ↔ v ∈ resourceSelectValue props)
  ∧ (is_Some (domainUrnToDisplayName props h !! v) ↔ v ∈ map value (domains props))
  ∧ (∀ before cv after,
       resourceEntities props = before ++ cv :: after →
       (∀ cv', cv' ∈ after → value cv' ≠ value cv) →
       resourceUrnToDisplayName props h !! value cv
       = Some (getDisplayName h (entity cv)))
  ∧ (∀ before cv after,
       domains props = before ++ cv :: after →
       (∀ cv', cv' ∈ after → value cv' ≠ value cv) →
       domainUrnToDisplayName props h !! value cv
       = Some (getDisplayName h (entity cv)))
  ∧ (∀ l,
       urnToDisplayName h l !! v
       = (λ cv, getDisplayName h (entity cv))
           <$> last (List.filter (λ cv, bool_decide (value cv = v)) l)).
Proof.
  split; [apply urnToDisplayName_is_Some|]. split; [apply urnToDisplayName_is_Some|].
  split; [|split].
  - intros before cv after. apply urnToDisplayName_last.
  - intros before cv after. apply urnToDisplayName_last.
  - intros l. apply urnToDisplayName_lookup.
Qed.

(** A tag of the resource or of the domain input never shows more than 78
    characters; the tag of a resource has the whole value as tooltip. *)
Theorem filter_tags_bounded (tagProps : TagProps) :
  String.length (tag_children (resourceTagRender props h tagProps)) ≤ 78
  ∧ String.length (tag_children (domainTagRender props h tagProps)) ≤ 78
  ∧ tag_tooltip (resourceTagRender props h tagProps) = Some (tag_value tagProps)
  ∧ tag_tooltip (domainTagRender props h tagProps) = None.
Proof.
  split; [apply displayStringWithMaxLength_75|].
  split; [apply displayStringWithMaxLength_75|]. done.
Qed.

Lemma knownDisplayName_snoc (l : list PolicyMatchCriterionValue)
    (cv : PolicyMatchCriterionValue) (v : string) :
  value cv = v →
  knownDisplayName h (l ++ [cv]) v
  = e ← entity cv;
    let name := registryDisplayName h (entity_type e) e in
    if decide (name = "") then None else Some name.
Proof.
  intros Hcv. unfold knownDisplayName. rewrite List.filter_app. simpl.
  rewrite bool_decide_eq_true_2 by done. by rewrite last_snoc.
Qed.

(** After a resource is selected, the next render shows for it the display
    name of the entity found in the search results, shortened to 75
    characters, and the resource itself when no entity was found or its
    display name is empty. *)
Theorem selected_resource_tag (resource label : string) :
  ReadsBackWhatIsSet PU → KeepsFilter PU → CreatesValueWithEntity PU →
  ∃ r,
    onSelectResource props h resource = [setResources r]
    ∧ (∀ e, getEntityFromSearchResults (resourceSearchResults h) resource = Some e →
            registryDisplayName h (entity_type e) e ≠ "" →
            tag_children
              (resourceTagRender (withResources props r) h
                 {| tag_value := resource; tag_label := label |})
            = displayStringWithMaxLength (registryDisplayName h (entity_type e) e) 75)
    ∧ (getEntityFromSearchResults (resourceSearchResults h) resource = None
       ∨ (∃ e, getEntityFromSearchResults (resourceSearchResults h) resource = Some e
               ∧ registryDisplayName h (entity_type e) e = "") →
       tag_children
         (resourceTagRender (withResources props r) h
            {| tag_value := resource; tag_label := label |})
       = displayStringWithMaxLength resource 75).
Proof.
  intros Hlaw Hkeep Hcreate.
  destruct (onSelectResource_field props h resource Hlaw) as (r & Hev & Hfield).
  destruct (Hcreate resource
              (getEntityFromSearchResults (resourceSearchResults h) resource))
    as [Hvalue Hentity].
  exists r. split; [exact Hev|].
  assert (Hr : resources (withResources props r) = r).
  { injection Hev as <-. by eapply resources_withResources. }
  assert (Htag : tag_children
                   (resourceTagRender (withResources props r) h
                      {| tag_value := resource; tag_label := label |})
                 = displayStringWithMaxLength
                     (default resource
                        (e ← getEntityFromSearchResults (resourceSearchResults h) resource;
                         let name := registryDisplayName h (entity_type e) e in
                         if decide (name = "") then None else Some name)) 75).
  { unfold resourceTagRender, resourceUrnToDisplayName. simpl.
    rewrite displayNameOr_known. unfold resourceEntities. rewrite Hr.
    change (default [] (getFieldValues (filter r) "URN")) with (fieldValues r "URN").
    rewrite Hfield. rewrite (knownDisplayName_snoc _ _ resource Hvalue).
    by rewrite Hentity. }
  rewrite Htag. split.
  - intros e -> Hname. simpl. by rewrite decide_False.
  - intros [->|(e & -> & Hname)]; simpl; [done|]. by rewrite decide_True.
Qed.

(** The privileges select offers one option per privilege option, in their
    order, and the option [All] last; selecting [All] reports exactly the
    values of the options before it.  The resource type select offers the
    resource types of the catalog other than ["all"], in the order of the
    catalog. *)
Theorem select_options :
  map option_value (privilegeSelectOptions props h)
    = map priv_type (privilegeOptions props h) ++ ["All"]
  ∧ (∃ newPrivs,
       onSelectPrivilege props h "All" = [setPrivileges newPrivs]
       ∧ map option_value (privilegeSelectOptions props h) = newPrivs ++ ["All"])
  ∧ map option_value (resourceTypeOptions h)
    = List.filter (λ t, bool_decide (t ≠ "all"))
        (map resourceType (default [] (resourcePrivileges <$> policiesConfig h))).
Proof.
  assert (Hvalues : map option_value (privilegeSelectOptions props h)
                    = map priv_type (privilegeOptions props h) ++ ["All"]).
  { unfold privilegeSelectOptions. rewrite List.map_app, List.map_map. done. }
  split; [exact Hvalues|]. split.
  - eexists. split; [apply onSelectPrivilege_All | exact Hvalues].
  - unfold resourceTypeOptions, the_resourcePrivileges.
    rewrite List.map_map. simpl.
    generalize (default [] (resourcePrivileges <$> policiesConfig h)) as l.
    induction l as [|privs l IH]; [done|]. simpl.
    destruct (bool_decide (resourceType privs ≠ "all")); simpl; by rewrite IH.
Qed.

(** Without a policies configuration the resource type select has no
    option, a platform policy has no privilege option, the privileges select
    still offers [All], and selecting [All] on a platform policy reports
    the empty list. *)
Theorem missing_policies_config :
  policiesConfig h = None →
  resourceTypeOptions h = []
  ∧ (policyType props = PolicyType_Platform →
     privilegeOptions props h = []
     ∧ privilegeSelectOptions props h
       = [{| option_value := "All"; option_children := "All Privileges" |}]
     ∧ onSelectPrivilege props h "All" = [setPrivileges []]).
Proof.
  intros Hconfig. unfold resourceTypeOptions, the_resourcePrivileges.
  rewrite Hconfig. split; [done|]. intros Hplatform.
  assert (Hoptions : privilegeOptions props h = []).
  { unfold privilegeOptions, the_platformPrivileges.
    rewrite decide_True by done. by rewrite Hconfig. }
  split; [exact Hoptions|]. split.
  - unfold privilegeSelectOptions. by rewrite Hoptions.
  - rewrite onSelectPrivilege_All. by rewrite Hoptions.
Qed.

End TagsOverRenders.

(** * The further statements on concrete inputs *)

Import Inputs.

Lemma findCriterion_other (k k' : string) (vs : list PolicyMatchCriterionValue)
    (l : list PolicyMatchCriterion) :
  k ≠ k' →
  List.find (λ criterion, bool_decide (field criterion = k'))
    (List.filter (λ criterion, bool_decide (field criterion ≠ k)) l
     ++ [{| field := k; values := vs |}])
  = List.find (λ criterion, bool_decide (field criterion = k')) l.
Proof.
  intros Hk. induction l as [|c l IH]; simpl.
  - by rewrite bool_decide_eq_false_2.
  - destruct (decide (field c = k)) as [Heq|Hne].
    + rewrite (bool_decide_eq_false_2 (field c ≠ k)) by auto.
      rewrite (bool_decide_eq_false_2 (field c = k')) by congruence. done.
    + rewrite (bool_decide_eq_true_2 (field c ≠ k)) by done. simpl.
      destruct (bool_decide (field c = k')); [done|]. exact IH.
Qed.

Lemma reference_reads_other : ReadsOtherFields policyUtils.
Proof.
  intros f k k' vs Hk. simpl. unfold findCriterion. simpl.
  by rewrite findCriterion_other.
Qed.

Lemma reference_missing_as_empty : ReadsMissingAsEmpty policyUtils.
Proof. by intros k. Qed.

Lemma reference_keeps_filter : KeepsFilter policyUtils.
Proof. by intros r f Hf. Qed.

Lemma reference_creates_with_entity : CreatesValueWithEntity policyUtils.
Proof. by intros v e. Qed.

Lemma getEntityFromSearchResults_finds_witness :
  (resourceSearchResults hooksWithoutConfig = None
   ∧ resourceSearchResults hooks = Some [ {| result_entity := orders |} ])
  ∧ getEntityFromSearchResults (resourceSearchResults hooksWithoutConfig)
      "urn:li:dataset:orders" = None
  ∧ getEntityFromSearchResults (resourceSearchResults hooks)
      "urn:li:dataset:orders" = Some orders
  ∧ getEntityFromSearchResults (resourceSearchResults hooks)
      "urn:li:dataset:raw" = None.
Proof.
  split; [done|].
  destruct (getEntityFromSearchResults_finds
              (resourceSearchResults hooksWithoutConfig) "urn:li:dataset:orders")
    as (Hnone & _).
  destruct (getEntityFromSearchResults_finds
              (resourceSearchResults hooks) "urn:li:dataset:orders")
    as (_ & _ & _ & Hfirst).
  destruct (getEntityFromSearchResults_finds
              (resourceSearchResults hooks) "urn:li:dataset:raw")
    as (_ & _ & Hnot & _).
  split; [exact (Hnone eq_refl)|]. split.
  - apply (Hfirst [] _ [] eq_refl); [|done].
    by intros result ?%elem_of_nil.
  - apply (Hnot _ eq_refl). intros result Hin.
    apply list_elem_of_singleton in Hin as ->. done.
Defined.

Lemma offered_options_resolve_witness :
  {| option_value := "urn:li:dataset:orders"; option_children := "Orders" |}
    ∈ searchResultOptions hooks (resourceSearchResults hooks)
  ∧ ∃ e, getEntityFromSearchResults (resourceSearchResults hooks)
           "urn:li:dataset:orders" = Some e
         ∧ urn e = "urn:li:dataset:orders".
Proof.
  assert (Hin : {| option_value := "urn:li:dataset:orders";
                   option_children := "Orders" |}
                ∈ searchResultOptions hooks (resourceSearchResults hooks))
    by constructor.
  split; [exact Hin|].
  exact (proj1 (offered_options_resolve hooks _) Hin).
Defined.

Lemma onSelectResource_appends_witness :
  (ReadsBackWhatIsSet policyUtils ∧ CreatesValueWithEntity policyUtils)
  ∧ ∃ r cv,
      onSelectResource metadataProps hooks "urn:li:dataset:orders" = [setResources r]
      ∧ fieldValues r "URN" = [urnOrders; urnRaw] ++ [cv]
      ∧ value cv = "urn:li:dataset:orders"
      ∧ entity cv = Some orders.
Proof.
  split; [split; [exact reference_reads_back | exact reference_creates_with_entity]|].
  destruct (onSelectResource_appends metadataProps hooks "urn:li:dataset:orders"
              reference_reads_back reference_creates_with_entity)
    as (r & cv & Hev & Hfield & Hvalue & Hentity & _).
  exists r, cv. split; [exact Hev|]. split; [exact Hfield|].
  split; [exact Hvalue | exact Hentity].
Defined.

Lemma onSelectDomain_appends_witness :
  (ReadsBackWhatIsSet policyUtils ∧ CreatesValueWithEntity policyUtils)
  ∧ (∃ r cv,
       onSelectDomain metadataProps hooks "urn:li:dataset:orders" (Some marketing)
         = [setResources r]
       ∧ fieldValues r "DOMAIN" = [domainMarketing] ++ [cv]
       ∧ entity cv = Some marketing)
  ∧ (∃ r cv,
       onSelectDomain metadataProps hooks "urn:li:domain:sales" None
         = [setResources r]
       ∧ value cv = "urn:li:domain:sales"
       ∧ entity cv = None).
Proof.
  split; [split; [exact reference_reads_back | exact reference_creates_with_entity]|].
  destruct (onSelectDomain_appends metadataProps hooks "urn:li:dataset:orders"
              (Some marketing) reference_reads_back reference_creates_with_entity)
    as (r & cv & Hev & Hfield & _ & Hobj & _).
  destruct (onSelectDomain_appends metadataProps hooks "urn:li:domain:sales"
              None reference_reads_back reference_creates_with_entity)
    as (r' & cv' & Hev' & _ & Hvalue' & _ & Hsearch).
  split.
  - exists r, cv. split; [exact Hev|]. split; [exact Hfield|]. exact (Hobj _ eq_refl).
  - exists r', cv'. split; [exact Hev'|]. split; [exact Hvalue'|].
    exact (Hsearch eq_refl).
Defined.

Lemma select_then_deselect_restores_witness :
  (ReadsBackWhatIsSet policyUtils ∧ KeepsFilter policyUtils
   ∧ CreatesValue policyUtils ∧ CreatesValueWithEntity policyUtils
   ∧ ("container" ∉ map value (fieldValues (resources metadataProps) "TYPE")))
  ∧ ∃ r r',
      onSelectResourceType metadataProps "container" = [setResources r]
      ∧ onDeselectResourceType (withResources metadataProps r) "container"
        = [setResources r']
      ∧ fieldValues r' "TYPE" = [typeDataset].
Proof.
  assert (Habsent : "container"
                    ∉ map value (fieldValues (resources metadataProps) "TYPE")).
  { change (map value (fieldValues (resources metadataProps) "TYPE"))
      with ["dataset"].
    rewrite not_elem_of_cons. split; [done|apply not_elem_of_nil]. }
  split.
  { split; [exact reference_reads_back|]. split; [exact reference_keeps_filter|].
    split; [exact reference_creates_value|].
    split; [exact reference_creates_with_entity | exact Habsent]. }
  destruct (select_then_deselect_restores metadataProps hooks "container"
              reference_reads_back reference_keeps_filter
              reference_creates_value reference_creates_with_entity)
    as ((r & r' & Hsel & Hdesel & _ & Hrestore) & _).
  exists r, r'. split; [exact Hsel|]. split; [exact Hdesel|].
  exact (Hrestore Habsent).
Defined.

Lemma deselect_absent_keeps_field_witness :
  (ReadsBackWhatIsSet policyUtils
   ∧ ("urn:li:domain:sales"
      ∉ map value (fieldValues (resources metadataProps) "DOMAIN")))
  ∧ ∃ r, onDeselectDomain metadataProps "urn:li:domain:sales" = [setResources r]
         ∧ fieldValues r "DOMAIN" = [domainMarketing].
Proof.
  assert (Habsent : "urn:li:domain:sales"
                    ∉ map value (fieldValues (resources metadataProps) "DOMAIN")).
  { change (map value (fieldValues (resources metadataProps) "DOMAIN"))
      with ["urn:li:domain:marketing"].
    rewrite not_elem_of_cons. split; [done|apply not_elem_of_nil]. }
  split; [split; [exact reference_reads_back | exact Habsent]|].
  destruct (deselect_absent_keeps_field metadataProps "urn:li:domain:sales"
              reference_reads_back) as (_ & _ & Hdomain).
  exact (Hdomain Habsent).
Defined.

Lemma filter_events_keep_other_fields_witness :
  (ReadsOtherFields policyUtils ∧ ReadsMissingAsEmpty policyUtils
   ∧ "URN" ≠ eventField (SelectResourceType "container"))
  ∧ ∃ r, handleFilterEvent metadataProps hooks (SelectResourceType "container")
         = [setResources r]
         ∧ fieldValues r "URN" = [urnOrders; urnRaw].
Proof.
  assert (Hk : "URN" ≠ eventField (SelectResourceType "container")) by done.
  split.
  { split; [exact reference_reads_other|].
    split; [exact reference_missing_as_empty | exact Hk]. }
  exact (filter_events_keep_other_fields metadataProps hooks
           (SelectResourceType "container") "URN"
           reference_reads_other reference_missing_as_empty Hk).
Defined.

Lemma search_text_is_trimmed_witness :
  allWhiteSpace "   "
  ∧ handleDomainSearch "   "
    = [setDomainInputValue "";
       searchDomains {| s_type := EntityType_Domain; s_query := "*";
                        s_start := 0; s_count := 10 |}].
Proof.
  assert (Hall : allWhiteSpace "   ") by (repeat constructor).
  split; [exact Hall|].
  destruct (search_text_is_trimmed metadataProps hooks "   ")
    as (pre & post & stored & query & Hev & _ & _ & _ & _ & _ & _ & _ & Hblank & _).
  destruct (Hblank Hall) as [Hstored Hquery].
  rewrite Hstored, Hquery in Hev. exact Hev.
Defined.

Lemma resource_search_types_witness :
  (∀ resourceType,
     resourceType ∈ map value (resourceTypes containerProps) →
     mapResourceTypeToEntityType resourceType (the_resourcePrivileges hooks) = None)
  ∧ ∃ input,
      handleResourceSearch containerProps hooks "orders" = [searchResources input]
      ∧ sa_types input = [].
Proof.
  assert (Hnone : ∀ resourceType,
            resourceType ∈ map value (resourceTypes containerProps) →
            mapResourceTypeToEntityType resourceType (the_resourcePrivileges hooks)
            = None).
  { intros resourceType Hin.
    change (map value (resourceTypes containerProps)) with ["container"] in Hin.
    apply list_elem_of_singleton in Hin as ->. reflexivity. }
  split; [exact Hnone|].
  destruct (resource_search_types containerProps hooks "orders")
    as (input & Hev & _ & _ & Hunmapped).
  exists input. split; [exact Hev | exact (Hunmapped Hnone)].
Defined.

Lemma domain_search_state_witness :
  (isFocusedOnInput typing = true ∧ allWhiteSpace "  ")
  ∧ isShowingDomainNavigator (applyEffects typing (handleDomainSearch "  ")) = true.
Proof.
  assert (Hall : allWhiteSpace "  ") by (repeat constructor).
  split; [done|].
  destruct (domain_search_state typing "  ") as (_ & _ & Hshown).
  apply Hshown. by split.
Defined.

Lemma blur_keeps_navigator_witness :
  domainInputValue focusedEmpty = ""
  ∧ isShowingDomainNavigator (applyEffects focusedEmpty handleFocus) = true
  ∧ isShowingDomainNavigator (applyEffects typing handleBlur) = true.
Proof.
  split; [done|].
  destruct (blur_keeps_navigator focusedEmpty) as (_ & _ & Hfocus).
  destruct (blur_keeps_navigator typing) as (Hblur & _).
  split; [by apply Hfocus | exact Hblur].
Defined.

Lemma displayStringWithMaxLength_again_witness :
  3 < String.length "abcd" < 3 + 3
  ∧ String.length "abcd" < String.length (displayStringWithMaxLength "abcd" 3).
Proof.
  assert (Hlen : 3 < String.length "abcd" < 3 + 3) by (simpl; lia).
  split; [exact Hlen|].
  destruct (displayStringWithMaxLength_again "abcd" 3) as (_ & _ & _ & Hlonger).
  by apply Hlonger.
Defined.

Lemma display_names_by_value_witness :
  ("urn:li:dataset:raw" ∈ resourceSelectValue duplicateProps
   ∧ resourceEntities duplicateProps = [urnRaw] ++ urnRawOrders :: [urnOrders]
   ∧ ∀ cv', cv' ∈ [urnOrders] → value cv' ≠ value urnRawOrders)
  ∧ is_Some (resourceUrnToDisplayName duplicateProps hooks !! "urn:li:dataset:raw")
  ∧ resourceUrnToDisplayName duplicateProps hooks !! "urn:li:dataset:raw"
    = Some (Some "Orders").
Proof.
  assert (Hin : "urn:li:dataset:raw" ∈ resourceSelectValue duplicateProps)
    by left.
  assert (Hafter : ∀ cv', cv' ∈ [urnOrders] → value cv' ≠ value urnRawOrders).
  { intros cv' Hcv. apply list_elem_of_singleton in Hcv as ->. done. }
  split; [done|].
  destruct (display_names_by_value duplicateProps hooks "urn:li:dataset:raw")
    as (Hresource & _ & Hlast & _).
  split; [by apply Hresource|].
  exact (Hlast [urnRaw] urnRawOrders [urnOrders] eq_refl Hafter).
Defined.

Lemma selected_resource_tag_witness :
  (ReadsBackWhatIsSet policyUtils ∧ KeepsFilter policyUtils
   ∧ CreatesValueWithEntity policyUtils
   ∧ getEntityFromSearchResults (resourceSearchResults hooks)
       "urn:li:dataset:orders" = Some orders
   ∧ registryDisplayName hooks (entity_type orders) orders ≠ "")
  ∧ ∃ r,
      onSelectResource metadataProps hooks "urn:li:dataset:orders" = [setResources r]
      ∧ tag_children
          (resourceTagRender (withResources metadataProps r) hooks
             {| tag_value := "urn:li:dataset:orders"; tag_label := "" |})
        = "Orders".
Proof.
  assert (Hname : registryDisplayName hooks (entity_type orders) orders ≠ "") by done.
  split.
  { split; [exact reference_reads_back|]. split; [exact reference_keeps_filter|].
    split; [exact reference_creates_with_entity|]. by split. }
  destruct (selected_resource_tag metadataProps hooks "urn:li:dataset:orders" ""
              reference_reads_back reference_keeps_filter
              reference_creates_with_entity) as (r & Hev & Hfound & _).
  exists r. split; [exact Hev|]. exact (Hfound orders eq_refl Hname).
Defined.

Lemma missing_policies_config_witness :
  (policiesConfig hooksWithoutConfig = None
   ∧ policyType platformProps = PolicyType_Platform)
  ∧ resourceTypeOptions hooksWithoutConfig = []
  ∧ onSelectPrivilege platformProps hooksWithoutConfig "All" = [setPrivileges []].
Proof.
  split; [done|].
  destruct (missing_policies_config platformProps hooksWithoutConfig eq_refl)
    as (Htypes & Hplatform).
  split; [exact Htypes|]. by apply Hplatform.
Defined.
